(** * eddylicious: the foamFile-to-HDF5 converter and the Lund rescaling driver

    A shallow embedding of the two scripts of the repository,
    [bin/convertFoamFileToHDF5.py] and [bin/runModLundRescaling.py], and
    the properties their specification states about them.

    Conventions of the embedding.
    - Python [int]s and numpy integer arrays are [Z] and [list Z].
    - Python and numpy floats are modelled by exact rationals [Q]: rounding,
      infinities and NaN are outside the model.  A Python float division
      raises [ZeroDivisionError] on a zero divisor, as in the interpreter.
    - Strings are [string]; [configDict] and the HDF5 name spaces are
      [gmap]s.
    - A script is a computation in the monad [Py.M]: it threads the
      process' world (standard output and the HDF5 files on disk) and ends
      in a value, an uncaught exception, or [sys.exit].
    - Everything the scripts import (os, numpy's text reader, the
      eddylicious readers, writers and generators) is reached through the
      record [Env] of each script. *)

From Stdlib Require Import ZArith QArith Qabs Qround Lqa List Sorted Ascii String Lia.
From stdpp Require Import base gmap strings list pretty.

Local Open Scope string_scope.
Local Open Scope Z_scope.

(** ** Integer sums *)

Definition zsum (l : list Z) : Z := fold_right Z.add 0 l.

(** ** The chunk partitioner *)

Module Partitioner.

(** Modelled from the spec: [chunks_and_offsets] lives in
    [eddylicious.generators.helper_functions], which is not among the
    sources; the scripts only import and call it.  Section 4.2 of the
    specification fixes its result: worker [k] of [P] receives
    [floor(N/P)] items, one more when [k < N mod P]. *)
Definition chunk_size (P N : Z) (k : nat) : Z :=
  N / P + (if Z.of_nat k <? N mod P then 1 else 0).

Definition chunk_sizes (P N : Z) : list Z :=
  map (chunk_size P N) (seq 0 (Z.to_nat P)).

(** [offsets[0] == 0] and [offsets[k] == offsets[k-1] + chunkSizes[k-1]]:
    the running sum of the sizes, started at [acc]. *)
Fixpoint running_offsets (acc : Z) (sizes : list Z) : list Z :=
  match sizes with
  | [] => []
  | c :: rest => acc :: running_offsets (acc + c) rest
  end.

(** Modelled from the spec: the call [chunks_and_offsets(nProcs, size)] as
    the converter makes it, worker count first. *)
Definition chunks_and_offsets (nProcs size : Z) : list Z * list Z :=
  let chunks := chunk_sizes nProcs size in
  (chunks, running_offsets 0 chunks).

(** Worker [k] owns the half-open index range
    [[offsets[k], offsets[k] + chunks[k])]. *)
Definition owns (chunks offsets : list Z) (k : nat) (i : Z) : Prop :=
  exists o c, offsets !! k = Some o /\ chunks !! k = Some c /\ o <= i < o + c.

End Partitioner.

(** ** numpy arrays *)

Module Np.

(** An n-dimensional array of floats: its shape and its elements in
    row-major order. *)
Record ndarray := mk_ndarray { shape : list nat; flat : list Q }.

Definition prod_shape (s : list nat) : nat := fold_right Nat.mul 1%nat s.

(** [a.size]: the number of elements, the product of the dimensions. *)
Definition size (a : ndarray) : nat := prod_shape (shape a).

(** A one-dimensional array from its elements. *)
Definition vec (xs : list Q) : ndarray := mk_ndarray [length xs] xs.

(** A two-dimensional array from its rows, [ncols] wide. *)
Definition mat (ncols : nat) (rows : list (list Q)) : ndarray :=
  mk_ndarray [length rows; ncols] (concat rows).

(** [np.zeros(s)] *)
Definition zeros (s : list nat) : ndarray :=
  mk_ndarray s (repeat 0%Q (prod_shape s)).

(** [a[i]] of a one-dimensional array at a position counted from the
    start ([i >= 0]) or from the end ([i < 0]); [None] is numpy's
    [IndexError]. *)
Definition norm_index (n : nat) (i : Z) : option nat :=
  if (0 <=? i) && (i <? Z.of_nat n) then Some (Z.to_nat i)
  else if (i <? 0) && (- Z.of_nat n <=? i) then Some (Z.to_nat (Z.of_nat n + i))
  else None.

(** [a[:, j]]: the slice that fixes the second axis at [j].  It needs at
    least two axes and an index inside the second one; [None] is numpy's
    [IndexError]. *)
Definition slice_axis1 (a : ndarray) (j : Z) : option ndarray :=
  match shape a with
  | r :: c :: rest =>
      match norm_index c j with
      | Some jn =>
          let inner := prod_shape rest in
          Some (mk_ndarray (r :: rest)
                  (flat_map (fun i =>
                     map (fun k => nth (((i * c + jn) * inner + k)%nat) (flat a) 0%Q)
                         (seq 0 inner))
                     (seq 0 r)))
      | None => None
      end
  | _ => None
  end.

(** [a[i]] of a one-dimensional array; [None] is numpy's [IndexError].
    The scripts subscript only one-dimensional arrays with a single
    integer (columns of a table or of a grid); on an array of another
    rank the model has no value either. *)
Definition item (a : ndarray) (i : Z) : option Q :=
  match shape a with
  | [n] => match norm_index n i with
           | Some k => flat a !! k
           | None => None
           end
  | _ => None
  end.

End Np.

(** ** The Python process *)

Module Py.

(** The exception classes the scripts can end in. *)
Inductive exn :=
| IndexError | TypeError | ValueError | KeyError | AssertionError
| ZeroDivisionError | OSError.

(** How a computation ends: with a value, with an uncaught exception, or
    in [sys.exit(arg)], that is [SystemExit(arg)]. *)
Inductive outcome (A : Type) :=
| Returned (a : A)
| Raised (e : exn)
| Exited (arg : option Z).
Arguments Returned {A} a.
Arguments Raised {A} e.
Arguments Exited {A} arg.

(** The exit status the interpreter hands to the operating system: 0 when
    the script runs to its end, 1 after an uncaught exception, and for
    [SystemExit] the integer argument, with [None] (a bare [exit()])
    counting as 0. *)
Definition exit_status {A} (o : outcome A) : Z :=
  match o with
  | Returned _ => 0
  | Raised _ => 1
  | Exited None => 0
  | Exited (Some n) => n
  end.

(** An object of an HDF5 file: a group, or a dataset with its shape and
    its elements in row-major order. *)
Inductive h5obj :=
| Group
| Dataset (a : Np.ndarray).

(** An HDF5 file: its objects by path from the root, and the integer
    attributes of the root. *)
Record h5file := mk_h5file {
  objects : gmap (list string) h5obj;
  attrs : gmap string Z
}.

Definition h5empty : h5file := mk_h5file ∅ ∅.

(** What a script can change: its standard output, one printed line per
    entry, and the HDF5 files on disk. *)
Record World := mk_World {
  stdout : list string;
  disk : gmap string h5file
}.

Definition M (A : Type) : Type := World -> outcome A * World.

Definition ret {A} (a : A) : M A := fun w => (Returned a, w).

Definition bind {A B} (c : M A) (k : A -> M B) : M B :=
  fun w => match c w with
           | (Returned a, w') => k a w'
           | (Raised e, w') => (Raised e, w')
           | (Exited s, w') => (Exited s, w')
           end.

Definition raise {A} (e : exn) : M A := fun w => (Raised e, w).

(** [sys.exit()] *)
Definition sys_exit {A} (arg : option Z) : M A := fun w => (Exited arg, w).

(** [print] of one line. *)
Definition print (line : string) : M unit :=
  fun w => (Returned tt, mk_World (stdout w ++ [line])%list (disk w)).

(** A library call that returns or raises [e]. *)
Definition or_raise {A} (e : exn) (o : option A) : M A :=
  match o with Some a => ret a | None => raise e end.

(** A library call that returns or raises an exception of its own. *)
Definition lift {A} (r : exn + A) : M A :=
  match r with inl e => raise e | inr a => ret a end.

(** [assert b] *)
Definition py_assert (b : bool) : M unit :=
  if b then ret tt else raise AssertionError.

(** [if b: c] *)
Definition when (b : bool) (c : M unit) : M unit := if b then c else ret tt.

(** [for x in xs: body x] *)
Fixpoint for_each {A} (xs : list A) (body : A -> M unit) : M unit :=
  match xs with
  | [] => ret tt
  | x :: rest => bind (body x) (fun _ => for_each rest body)
  end.

Definition get_disk : M (gmap string h5file) := fun w => (Returned (disk w), w).

Definition put_disk (d : gmap string h5file) : M unit :=
  fun w => (Returned tt, mk_World (stdout w) d).

(** Python's float division [a / b]. *)
Definition truediv (a b : Q) : M Q :=
  if Qeq_bool b 0 then raise ZeroDivisionError else ret (a / b)%Q.

(** [int(x)] of a float: truncation toward zero. *)
Definition py_int (x : Q) : Z := Z.quot (Qnum x) (Z.pos (Qden x)).

(** [os.path.join(a, b)] on POSIX: an absolute [b] replaces [a]; otherwise
    the two are joined by one slash unless [a] is empty or already ends
    in one. *)
Definition ends_with_slash (a : string) : bool :=
  match String.get (String.length a - 1) a with
  | Some c => Ascii.eqb c "/"%char
  | None => false
  end.

Definition path_join (a b : string) : string :=
  if String.prefix "/" b then b
  else if String.eqb a "" || ends_with_slash a then a ++ b
  else a ++ "/" ++ b.

(** [np.sort] of an array of strings: ascending in the order of the
    character codes. *)
Fixpoint insert_sorted (s : string) (l : list string) : list string :=
  match l with
  | [] => [s]
  | x :: rest => if String.leb s x then s :: l else x :: insert_sorted s rest
  end.

Definition np_sort (l : list string) : list string :=
  fold_right insert_sorted [] l.

End Py.

Declare Scope py_scope.
Delimit Scope py_scope with py.
Notation "x <- c ;; k" := (Py.bind c (fun x => k))
  (at level 100, c at next level, right associativity) : py_scope.
Notation "c ;; k" := (Py.bind c (fun _ => k))
  (at level 100, right associativity) : py_scope.

Local Open Scope py_scope.

(** ** h5py and the file system *)

Module H5.
Import Py.

(** [os.path.isfile(name)], for the HDF5 files the world keeps track of. *)
Definition isfile (name : string) : M bool :=
  d <- get_disk ;; ret (bool_decide (is_Some (d !! name))).

(** [os.remove(name)] *)
Definition remove (name : string) : M unit :=
  d <- get_disk ;;
  match d !! name with
  | Some _ => put_disk (delete name d)
  | None => raise OSError
  end.

(** [h5py.File(name, 'a', ...)]: opens the file, creating an empty one
    when there is none.  The handle is the file's name. *)
Definition open_append (name : string) : M string :=
  d <- get_disk ;;
  match d !! name with
  | Some _ => ret name
  | None => put_disk (<[name := h5empty]> d) ;; ret name
  end.

(** The world with the file behind [handle] replaced. *)
Definition upd (handle : string) (f : h5file) (w : World) : World :=
  mk_World (stdout w) (<[handle := f]> (disk w)).

Definition get_file (handle : string) : M h5file :=
  d <- get_disk ;; or_raise OSError (d !! handle).

Definition put_file (handle : string) (f : h5file) : M unit :=
  d <- get_disk ;; put_disk (<[handle := f]> d).

Definition add_object (path : list string) (o : h5obj) (f : h5file) : h5file :=
  mk_h5file (<[path := o]> (objects f)) (attrs f).

Definition add_attr (key : string) (v : Z) (f : h5file) : h5file :=
  mk_h5file (objects f) (<[key := v]> (attrs f)).

(** Creating an object under a name that is taken raises [ValueError]. *)
Definition create_object (handle : string) (path : list string) (o : h5obj) : M unit :=
  f <- get_file handle ;;
  match objects f !! path with
  | Some _ => raise ValueError
  | None => put_file handle (add_object path o f)
  end.

(** [parent.create_group(name)]; the result is the group's path. *)
Definition create_group (handle : string) (parent : list string) (name : string)
  : M (list string) :=
  create_object handle (parent ++ [name])%list Group ;; ret (parent ++ [name])%list.

(** [parent.create_dataset(name, data=a)] *)
Definition create_dataset_data (handle : string) (parent : list string)
    (name : string) (a : Np.ndarray) : M (list string) :=
  create_object handle (parent ++ [name])%list (Dataset a) ;; ret (parent ++ [name])%list.

(** [parent.create_dataset(name, shape, ...)]: a dataset of that shape,
    filled with zeros. *)
Definition create_dataset_shape (handle : string) (parent : list string)
    (name : string) (s : list nat) : M (list string) :=
  create_dataset_data handle parent name (Np.zeros s).

(** [file.attrs[key] = v] *)
Definition set_attr (handle : string) (key : string) (v : Z) : M unit :=
  f <- get_file handle ;;
  put_file handle (add_attr key v f).

(** [dset[position, :, :] = v] on a three-dimensional dataset: the slab at
    [position] along the first axis is replaced by [v].  A position outside
    the first axis raises [IndexError].  The value is taken to have the
    slab's shape; h5py would also broadcast smaller shapes, which the
    readers do not produce, and the model raises [TypeError] for them. *)
Definition write_slab (handle : string) (path : list string) (position : Z)
    (v : Np.ndarray) : M unit :=
  f <- get_file handle ;;
  match objects f !! path with
  | Some (Dataset a) =>
      match Np.shape a with
      | [nt; ny; nz] =>
          if negb ((0 <=? position) && (position <? Z.of_nat nt)) then raise IndexError
          else if negb (bool_decide (Np.shape v = [ny; nz])) then raise TypeError
          else
            let k := (ny * nz)%nat in
            let p := Z.to_nat position in
            let data := (take (p * k) (Np.flat a) ++ Np.flat v
                         ++ drop (S p * k) (Np.flat a))%list in
            put_file handle
              (add_object path (Dataset (Np.mk_ndarray (Np.shape a) data)) f)
      | _ => raise TypeError
      end
  | _ => raise KeyError
  end.

End H5.

(** ** convertFoamFileToHDF5.py *)

Module Converter.
Import Py.

(** The command line after [parser.parse_args()]; the four flags are
    required strings. *)
Record Args := mk_Args {
  precursorPath : string;
  surfaceName : string;
  fileName : string;
  uMeanFile : string
}.

(** What the script reaches outside itself: the MPI communicator, the
    directory listing, numpy's text reader and float conversions, and the
    two foamFile readers of the eddylicious package. *)
Record Env := mk_Env {
  rank : Z;
  nProcs : Z;
  listdir : string -> option (list string);
  genfromtxt : string -> exn + Np.ndarray;
  float_of_string : string -> option Q;
  str_of_float : Q -> string;
  read_points_from_foamfile :
    string -> Q -> Q -> exn + (Np.ndarray * Np.ndarray * list Z * list Z);
  read_velocity_from_foamfile :
    string -> string -> nat -> list Z -> list Z -> (Q * Q * Q) -> (Q * Q * Q) ->
    string -> exn + (Np.ndarray * Np.ndarray * Np.ndarray)
}.

(** [s[:, 0]] on a Python [str]: a string is indexed by an integer or a
    slice, never by a tuple, so the subscription raises [TypeError]
    whatever the string is. *)
Definition str_getitem_tuple (s : string) : M string := raise TypeError.

(** Lines 68-76: the mean profile.  [uMean[:, 1]] is the second column;
    the third column is read when [uMean.shape[1] == 2]; then the script
    subscripts the file name itself. *)
Definition read_mean_profile (env : Env) (args : Args)
  : M (Np.ndarray * Np.ndarray * Np.ndarray * Np.ndarray) :=
  uMean <- lift (genfromtxt env (uMeanFile args)) ;;
  uMeanX <- or_raise IndexError (Np.slice_axis1 uMean 1) ;;
  ncols <- or_raise IndexError (Np.shape uMean !! 1%nat) ;;
  uMeanY <- (if (ncols =? 2)%nat
             then or_raise IndexError (Np.slice_axis1 uMean 2)
             else ret (Np.zeros (Np.shape uMeanX))) ;;
  name <- str_getitem_tuple (uMeanFile args) ;;
  y <- lift (genfromtxt env name) ;;
  ret (uMean, uMeanX, uMeanY, y).

(** The exception of lines 68-76 on a two-dimensional table with [c]
    columns: one column has no second column to read, two columns have no
    third, and any wider table gets as far as the subscript of the file
    name. *)
Definition profile_error (c : nat) : exn :=
  if (c <=? 2)%nat then IndexError else TypeError.

(** Line 83: [[nPointsY, nPointsZ] = pointsY.shape]. *)
Definition unpack_shape2 (a : Np.ndarray) : M (nat * nat) :=
  match Np.shape a with
  | [n; m] => ret (n, m)
  | _ => raise ValueError
  end.

(** Lines 83-85: the shape of the grid and the assertion on it. *)
Definition check_grid (pointsY uMean : Np.ndarray) : M (nat * nat) :=
  dims <- unpack_shape2 pointsY ;;
  py_assert (fst dims =? Np.size uMean)%nat ;;
  ret dims.

(** Lines 87-93: process 0 removes an archive left from an earlier run;
    every process then opens the file. *)
Definition open_archive (env : Env) (args : Args) : M string :=
  when (rank env =? 0)
    (present <- H5.isfile (fileName args) ;;
     when present
       (print "HDF5 file already exists. It it will be overwritten." ;;
        H5.remove (fileName args))) ;;
  H5.open_append (fileName args).

(** [float(times[i]) for i in range(times.size)] *)
Fixpoint floats_of (env : Env) (times : list string) : M (list Q) :=
  match times with
  | [] => ret []
  | t :: rest =>
      x <- or_raise ValueError (float_of_string env t) ;;
      xs <- floats_of env rest ;;
      ret (x :: xs)
  end.

(** Lines 95-122: the layout of the archive. *)
Definition create_archive (env : Env) (dbFile : string) (times : list string)
    (pointsY pointsZ uMeanX uMeanY : Np.ndarray)
  : M (list string * list string * list string) :=
  pointsGroup <- H5.create_group dbFile [] "points" ;;
  velocityGroup <- H5.create_group dbFile [] "velocity" ;;
  H5.create_dataset_data dbFile pointsGroup "pointsY" pointsY ;;
  H5.create_dataset_data dbFile pointsGroup "pointsZ" pointsZ ;;
  H5.create_dataset_data dbFile velocityGroup "uMeanX" uMeanX ;;
  H5.create_dataset_data dbFile velocityGroup "uMeanY" uMeanY ;;
  ts <- floats_of env times ;;
  H5.create_dataset_data dbFile velocityGroup "times" (Np.vec ts) ;;
  n0 <- or_raise IndexError (Np.shape pointsY !! 0%nat) ;;
  n1 <- or_raise IndexError (Np.shape pointsY !! 1%nat) ;;
  uX <- H5.create_dataset_shape dbFile velocityGroup "uX" [length times; n0; n1] ;;
  uY <- H5.create_dataset_shape dbFile velocityGroup "uY" [length times; n0; n1] ;;
  uZ <- H5.create_dataset_shape dbFile velocityGroup "uZ" [length times; n0; n1] ;;
  H5.set_attr dbFile "nPointsY" (Z.of_nat n0) ;;
  H5.set_attr dbFile "nPointsZ" (Z.of_nat n1) ;;
  H5.set_attr dbFile "nPoints" (Z.of_nat (Np.size pointsY)) ;;
  ret (uX, uY, uZ).

(** [np.mod(i, n)] on integers: numpy returns 0 for a zero divisor. *)
Definition np_mod (i n : Z) : Z := if n =? 0 then 0 else i mod n.

(** Lines 132-143: the body of the loop over the process' own chunk. *)
Definition convert_step (env : Env) (dbFile : string) (times : list string)
    (chunk offset : Z) (uX uY uZ : list string)
    (readFunc : string -> exn + (Np.ndarray * Np.ndarray * Np.ndarray))
    (i : nat) : M unit :=
  when ((rank env =? 0)
        && (np_mod (Z.of_nat i) (py_int (inject_Z chunk / 20)) =? 0))
    (print ("Converted about "
            ++ str_of_float env (inject_Z (Z.of_nat i) / inject_Z chunk * 100)%Q
            ++ "%")) ;;
  let position := offset + Z.of_nat i in
  idx <- or_raise IndexError (Np.norm_index (length times) position) ;;
  t <- or_raise IndexError (times !! idx) ;;
  vals <- lift (readFunc t) ;;
  let '(uXVal, uYVal, uZVal) := vals in
  H5.write_slab dbFile uX position uXVal ;;
  H5.write_slab dbFile uY position uYVal ;;
  H5.write_slab dbFile uZ position uZVal.

(** [chunks[rank]] and [offsets[rank]] *)
Definition at_rank (env : Env) (l : list Z) : M Z :=
  idx <- or_raise IndexError (Np.norm_index (length l) (rank env)) ;;
  or_raise IndexError (l !! idx).

(** Lines 61-62: [dataDir]. *)
Definition data_dir (args : Args) : string :=
  path_join (path_join (precursorPath args) "postProcessing") "sampledSurface".

(** [main()], lines 13-151. *)
Definition main (env : Env) (args : Args) : M unit :=
  let dataDir := data_dir args in
  names <- or_raise OSError (listdir env dataDir) ;;
  let times := np_sort names in
  prof <- read_mean_profile env args ;;
  let '(uMean, uMeanX, uMeanY, y) := prof in
  y0 <- or_raise IndexError (Np.item y 0) ;;
  yN <- or_raise IndexError (Np.item y (-1)) ;;
  t0 <- or_raise IndexError (times !! 0%nat) ;;
  pts <- lift (read_points_from_foamfile env
                 (path_join (path_join (path_join dataDir t0) (surfaceName args))
                            "faceCentres") y0 yN) ;;
  let '(pointsY, pointsZ, yInd, zInd) := pts in
  dims <- check_grid pointsY uMean ;;
  let '(nPointsY, nPointsZ) := dims in
  dbFile <- open_archive env args ;;
  dsets <- create_archive env dbFile times pointsY pointsZ uMeanX uMeanY ;;
  let '(uX, uY, uZ) := dsets in
  let '(chunks, offsets) :=
    Partitioner.chunks_and_offsets (nProcs env) (Z.of_nat (length times)) in
  bx <- or_raise IndexError (Np.item uMeanX 0) ;;
  by_ <- or_raise IndexError (Np.item uMeanY 0) ;;
  tx <- or_raise IndexError (Np.item uMeanX (-1)) ;;
  ty <- or_raise IndexError (Np.item uMeanY (-1)) ;;
  let readFunc := read_velocity_from_foamfile env dataDir (surfaceName args)
                    nPointsZ yInd zInd (bx, by_, 0%Q) (tx, ty, 0%Q) in
  chunk <- at_rank env chunks ;;
  offset <- at_rank env offsets ;;
  for_each (seq 0 (Z.to_nat chunk))
    (convert_step env dbFile times chunk offset uX uY uZ readFunc) ;;
  when (rank env =? 0) (print "Process 0 done, waiting for the others...") ;;
  when (rank env =? 0) (print "Done").

(** Lines 153-154, the last statement of the module: the guard compares
    [__name__] with a string that starts with a blank. *)
Definition script (name__ : string) (env : Env) (args : Args) : M unit :=
  if String.eqb name__ " __main__" then main env args else ret tt.

(** Running the file as a program binds [__name__] to ["__main__"]. *)
Definition run_as_program (env : Env) (args : Args) : M unit :=
  script "__main__" env args.

End Converter.

(** ** runModLundRescaling.py *)

Module Driver.
Import Py.

(** Where the generator writes: a directory for the tvmfv writer, the
    open archive for the hdf5 writer ([writePath] is rebound to the
    [h5py.File] object on line 217). *)
Inductive write_target :=
| Directory (path : string)
| Archive (handle : string).

(** The arguments of the call of [mod_lund_generate] on lines 238-246. *)
Record generate_args := mk_generate_args {
  g_reader : string; g_dataDir : string;
  g_writer : string; g_writePath : write_target;
  g_dt : Q; g_t0 : Q; g_tEnd : Q; g_timePrecision : Z;
  g_uMean : Np.ndarray; g_uMeanInfl : Np.ndarray;
  g_etaPrec : Np.ndarray; g_yPlusPrec : Np.ndarray; g_pointsZ : Np.ndarray;
  g_etaInfl : Np.ndarray; g_yPlusInfl : Np.ndarray; g_pointsZInfl : Np.ndarray;
  g_nInfl : Z; g_nInner : Z; g_gamma : Q;
  g_yInd : list Z; g_zInd : list Z;
  g_surfaceName : string; g_times : list string
}.

(** The arguments of the call of [mod_lund_rescale_mean_velocity] on
    lines 226-229. *)
Record rescale_args := mk_rescale_args {
  r_etaPrec : Np.ndarray; r_yPlusPrec : Np.ndarray; r_uMean : Np.ndarray;
  r_nInfl : Z; r_nInner : Z;
  r_etaInfl : Np.ndarray; r_yPlusInfl : Np.ndarray; r_nPointsZInfl : nat;
  r_Ue : Q; r_U0 : Q; r_gamma : Q
}.

(** What the script reaches outside itself: the MPI rank, the directory
    listing, numpy's text reader, the conversions [float] and [int] of a
    string, [pow] and [np.sqrt], and the functions it imports from the
    eddylicious package, none of which is defined in this file. *)
Record Env := mk_Env {
  rank : Z;
  listdir : string -> option (list string);
  genfromtxt : string -> exn + Np.ndarray;
  float_of_string : string -> option Q;
  int_of_string : string -> option Z;
  math_pow : Q -> Q -> exn + Q;
  np_sqrt : Q -> Q;
  read_points_nPointsY :
    string -> nat -> exn + (Np.ndarray * Np.ndarray * list Z * list Z);
  read_points_noZeros :
    string -> exn + (Np.ndarray * Np.ndarray * list Z * list Z);
  delta_99 : Np.ndarray -> Np.ndarray -> exn + Q;
  theta : Np.ndarray -> Np.ndarray -> exn + Q;
  delta_star : Np.ndarray -> Np.ndarray -> exn + Q;
  write_points_to_tvmfv : string -> Np.ndarray -> Np.ndarray -> Q -> M unit;
  write_points_to_hdf5 : string -> Np.ndarray -> Np.ndarray -> Q -> M unit;
  mod_lund_rescale_mean_velocity : rescale_args -> exn + Np.ndarray;
  mod_lund_generate : generate_args -> M unit
}.

(** [configDict[key]] *)
Definition cfg (configDict : gmap string string) (key : string) : M string :=
  or_raise KeyError (configDict !! key).

(** [float(configDict[key])] *)
Definition cfg_float (env : Env) (configDict : gmap string string) (key : string) : M Q :=
  s <- cfg configDict key ;; or_raise ValueError (float_of_string env s).

(** [int(configDict[key])] *)
Definition cfg_int (env : Env) (configDict : gmap string string) (key : string) : M Z :=
  s <- cfg configDict key ;; or_raise ValueError (int_of_string env s).

(** The [else] branch of every reader test: the message, then [exit()]
    with no argument. *)
Definition unknown_reader {A} (name : string) : M A :=
  print ("ERROR in runLundRescaling.py: unknown reader  " ++ name) ;;
  sys_exit None.

(** [if (reader == "foamFile"): body else: error] *)
Definition with_foamFile {A} (reader shown : string) (body : M A) : M A :=
  if String.eqb reader "foamFile" then body else unknown_reader shown.

(** numpy's division of an array or of a numpy scalar by a float.  numpy
    does not raise on a zero divisor (it warns and yields inf or nan);
    those values are outside the model, where the quotient is then 0. *)
Definition np_truediv (a b : Q) : Q := (a / b)%Q.

Definition np_map (f : Q -> Q) (a : Np.ndarray) : Np.ndarray :=
  Np.mk_ndarray (Np.shape a) (map f (Np.flat a)).

(** [np.append(np.zeros((1, 1)), a)]: both flattened, the zero first. *)
Definition prepend_zero (a : Np.ndarray) : Np.ndarray :=
  Np.vec (0%Q :: Np.flat a).

(** [np.max(a)] of a non-empty array. *)
Definition np_max (a : Np.ndarray) : option Q :=
  match Np.flat a with
  | [] => None
  | x :: rest => Some (fold_left (fun m y => if Qle_bool m y then y else m) rest x)
  end.

(** Lines 162-165: the outer-scaled coordinates.  The precursor's are its
    wall-normal coordinates as they are; the division by [deltaPrec] is
    commented out in the script. *)
Definition outer_coordinates (yPrec yInfl : Np.ndarray) (deltaPrec deltaInfl : Q)
  : Np.ndarray * Np.ndarray :=
  let etaPrec := yPrec in
  let etaInfl := np_map (fun y => np_truediv y deltaInfl) yInfl in
  (etaPrec, etaInfl).

(** One turn of the loop on lines 173-175: [etaPrec[-1]] is looked up
    anew and the counter goes up when the point is at or below it. *)
Definition count_turn (etaPrec : Np.ndarray) (n : Z) (eta : Q) : option Z :=
  match Np.item etaPrec (-1) with
  | Some last => Some (if Qle_bool eta last then n + 1 else n)
  | None => None
  end.

Fixpoint count_loop (etaPrec : Np.ndarray) (etas : list Q) (n : Z) : option Z :=
  match etas with
  | [] => Some n
  | eta :: rest =>
      match count_turn etaPrec n eta with
      | Some n' => count_loop etaPrec rest n'
      | None => None
      end
  end.

(** Lines 171-175: [nInfl]; [None] is the [IndexError] of [etaPrec[-1]]
    on an empty precursor array. *)
Definition count_nInfl (etaPrec etaInfl : Np.ndarray) : option Z :=
  count_loop etaPrec (Np.flat etaInfl) 0.

(** Lines 177-181: [nInner], the points with [etaInfl[i] <= 0.7]. *)
Definition count_nInner (etaInfl : Np.ndarray) : Z :=
  fold_left (fun n eta => if Qle_bool eta (7 # 10) then n + 1 else n)
            (Np.flat etaInfl) 0.

(** Line 193: [size = int((tEnd-t0)/dt+1)]. *)
Definition compute_size (t0 dt tEnd : Q) : M Z :=
  q <- truediv (tEnd - t0)%Q dt ;; ret (py_int (q + 1)%Q).

(** Lines 184-188: the check of the desired thickness against the inflow
    grid. *)
Definition delta_error : string :=
  "ERROR in runLundRescaling.py. Desired delta_99 is           larger then maximum y.".

Definition check_delta (deltaInfl : Q) (yInfl : Np.ndarray) : M unit :=
  top <- or_raise IndexError (Np.item yInfl (-1)) ;;
  if negb (Qle_bool deltaInfl top) then print delta_error ;; sys_exit None
  else ret tt.

(** [np.ones((size, 1))] scaled by [t0]; a negative size raises
    [ValueError]. *)
Definition time_column (size : Z) (t0 : Q) : M Np.ndarray :=
  if size <? 0 then raise ValueError
  else ret (Np.mk_ndarray [Z.to_nat size; 1%nat] (repeat t0 (Z.to_nat size))).

(** Lines 206-219: the hdf5 writer.  Process 0 removes an old file and
    lets [write_points_to_hdf5] start the new one; every process then
    opens it and adds the datasets [time] and [velocity] to its root. *)
Definition prepare_hdf5 (env : Env) (writePath hdf5FileName : string)
    (pointsYInfl pointsZInfl : Np.ndarray) (xOrigin t0 : Q) (size : Z)
  : M write_target :=
  let writePath := path_join writePath hdf5FileName in
  when (rank env =? 0)
    (present <- H5.isfile writePath ;;
     when present
       (print "HDF5 database already exsists. It it will be overwritten." ;;
        H5.remove writePath) ;;
     write_points_to_hdf5 env writePath pointsYInfl pointsZInfl xOrigin) ;;
  handle <- H5.open_append writePath ;;
  col <- time_column size t0 ;;
  H5.create_dataset_data handle [] "time" col ;;
  H5.create_dataset_shape handle [] "velocity"
    [Z.to_nat size; Np.size pointsZInfl; 3%nat] ;;
  ret (Archive handle).

(** Lines 198-205: the tvmfv writer. *)
Definition prepare_tvmfv (env : Env) (writePath inletPatchName : string)
    (pointsYInfl pointsZInfl : Np.ndarray) (xOrigin : Q) : M write_target :=
  let dir := path_join (path_join (path_join writePath "constant") "boundaryData")
                       inletPatchName in
  when (rank env =? 0)
    (write_points_to_tvmfv env (path_join dir "points") pointsYInfl pointsZInfl xOrigin) ;;
  ret (Directory dir).

(** Lines 197-224: the choice of the writer. *)
Definition prepare_writer (env : Env) (writer writePath hdf5FileName inletPatchName : string)
    (pointsYInfl pointsZInfl : Np.ndarray) (xOrigin t0 : Q) (size : Z)
  : M write_target :=
  if String.eqb writer "tvmfv" then
    prepare_tvmfv env writePath inletPatchName pointsYInfl pointsZInfl xOrigin
  else if String.eqb writer "hdf5" then
    prepare_hdf5 env writePath hdf5FileName pointsYInfl pointsZInfl xOrigin t0 size
  else
    print ("ERROR in runLundRescaling.py. Unknown writer  " ++ writer) ;;
    sys_exit None.

(** Lines 129-136: the friction velocity at the inflow, from the
    correlation [cf = 0.02 Re^(-1/6)] or from the configuration. *)
Definition friction_velocity (env : Env) (configDict : gmap string string)
    (Ue ReDelta : Q) : M Q :=
  inv <- truediv 1 ReDelta ;;
  sixth <- truediv 1 6 ;;
  p <- lift (math_pow env inv sixth) ;;
  let cfInfl := ((2 # 100) * p)%Q in
  mode <- cfg configDict "uTauInflow" ;;
  if String.eqb mode "compute" then ret (Ue * np_sqrt env (cfInfl / 2))%Q
  else cfg_float env configDict "uTauInflow".

(** The keys read on lines 43-54, before the first test of the reader. *)
Definition name_keys : list string :=
  ["readPath"; "inflowReadPath"; "writePath"; "sampleSurfaceName";
   "inletPatchName"; "reader"; "inflowReader"; "writer"; "hdf5FileName"].

(** The world after one more printed line. *)
Definition printed (w : World) (lines : list string) : World :=
  mk_World (stdout w ++ lines)%list (disk w).

(** The variables of the script that are live after line 181. *)
Record vars := mk_vars {
  writePath : string; hdf5FileName : string;
  sampleSurfaceName : string; inletPatchName : string;
  reader : string; writer : string;
  dataDir : string; times : list string;
  uMean : Np.ndarray; pointsZ : Np.ndarray; yInd : list Z; zInd : list Z;
  pointsYInfl : Np.ndarray; pointsZInfl : Np.ndarray; nPointsZInfl : nat;
  nuInfl : Q; deltaInfl : Q; U0 : Q; Ue : Q;
  ReTauInfl : Q; ReTauPrec : Q; gamma : Q;
  xOrigin : Q; dt : Q; t0 : Q; tEnd : Q; timePrecision : Z;
  yInfl : Np.ndarray;
  etaPrec : Np.ndarray; etaInfl : Np.ndarray;
  yPlusPrec : Np.ndarray; yPlusInfl : Np.ndarray;
  nInfl : Z; nInner : Z
}.

(** Lines 33-181, from the dictionary the configuration file was read
    into: the paths and names, the two grids, the parameters of the
    boundary layer and the two point counts. *)
Definition setup (env : Env) (configDict : gmap string string) : M vars :=
  readPath <- cfg configDict "readPath" ;;
  inflowReadPath <- cfg configDict "inflowReadPath" ;;
  writePath <- cfg configDict "writePath" ;;
  sampleSurfaceName <- cfg configDict "sampleSurfaceName" ;;
  inletPatchName <- cfg configDict "inletPatchName" ;;
  reader <- cfg configDict "reader" ;;
  inflowReader <- cfg configDict "inflowReader" ;;
  writer <- cfg configDict "writer" ;;
  hdf5FileName <- cfg configDict "hdf5FileName" ;;
  dataDir <- with_foamFile reader reader
    (ret (path_join (path_join readPath "postProcessing") "sampledSurface")) ;;
  times <- with_foamFile reader reader
    (names <- or_raise OSError (listdir env dataDir) ;; ret (np_sort names)) ;;
  when (rank env =? 0)
    (print ("Reading from database with  " ++ pretty (Z.of_nat (length times))
            ++ "  time-steps.")) ;;
  let collapsed := path_join (path_join readPath "postProcessing") "collapsedFields" in
  uMeanTimes <- or_raise OSError (listdir env collapsed) ;;
  uMean <- with_foamFile reader reader
    (idx <- or_raise IndexError (Np.norm_index (length uMeanTimes) (-1)) ;;
     latest <- or_raise IndexError (uMeanTimes !! idx) ;;
     table <- lift (genfromtxt env (path_join (path_join collapsed latest) "UMean_X.xy")) ;;
     col <- or_raise IndexError (Np.slice_axis1 table 1) ;;
     ret (prepend_zero col)) ;;
  let nPointsY := Np.size uMean in
  pts <- with_foamFile reader reader
    (first <- or_raise IndexError (times !! 0%nat) ;;
     lift (read_points_nPointsY env
             (path_join (path_join (path_join dataDir first) sampleSurfaceName)
                        "faceCentres") nPointsY)) ;;
  let '(pointsY, pointsZ, yInd, zInd) := pts in
  dims <- Converter.unpack_shape2 pointsY ;;
  ptsInfl <- with_foamFile inflowReader inflowReader
    (lift (read_points_noZeros env
             (path_join (path_join inflowReadPath inletPatchName) "faceCentres"))) ;;
  let '(pointsYInfl, pointsZInfl, yIndInfl, zIndInfl) := ptsInfl in
  dimsInfl <- Converter.unpack_shape2 pointsYInfl ;;
  let nPointsZInfl := snd dimsInfl in
  nuInfl <- cfg_float env configDict "nuInflow" ;;
  nuPrec <- cfg_float env configDict "nuPrecursor" ;;
  deltaInfl <- cfg_float env configDict "delta99" ;;
  U0 <- or_raise ValueError (np_max uMean) ;;
  Ue <- cfg_float env configDict "Ue" ;;
  ReDelta <- truediv (Ue * deltaInfl)%Q nuInfl ;;
  uTauInfl <- friction_velocity env configDict Ue ReDelta ;;
  uTauPrec <- cfg_float env configDict "uTauPrecursor" ;;
  ReTauInfl <- truediv (uTauInfl * deltaInfl)%Q nuInfl ;;
  mode <- cfg configDict "uTauInflow" ;;
  gamma <- (if String.eqb mode "compute" then ret (np_truediv uTauInfl uTauPrec)
            else truediv uTauInfl uTauPrec) ;;
  xOrigin <- cfg_float env configDict "xOrigin" ;;
  yOrigin <- cfg_float env configDict "yOrigin" ;;
  dt <- cfg_float env configDict "dt" ;;
  t0 <- cfg_float env configDict "t0" ;;
  tEnd <- cfg_float env configDict "tEnd" ;;
  timePrecision <- cfg_int env configDict "tPrecision" ;;
  yPrec <- or_raise IndexError (Np.slice_axis1 pointsY 0) ;;
  col0 <- or_raise IndexError (Np.slice_axis1 pointsYInfl 0) ;;
  let yInfl := np_map (fun y => y - yOrigin)%Q col0 in
  deltaPrec <- lift (delta_99 env yPrec uMean) ;;
  let ReTauPrec := np_truediv (uTauPrec * deltaPrec)%Q nuPrec in
  let '(etaPrec, etaInfl) := outer_coordinates yPrec yInfl deltaPrec deltaInfl in
  let yPlusPrec := np_map (fun y => np_truediv (y * uTauPrec) nuPrec)%Q yPrec in
  let yPlusInfl := np_map (fun y => np_truediv (y * uTauInfl) nuInfl)%Q yInfl in
  nInfl <- or_raise IndexError (count_nInfl etaPrec etaInfl) ;;
  let nInner := count_nInner etaInfl in
  ret (mk_vars writePath hdf5FileName sampleSurfaceName inletPatchName
         reader writer dataDir times uMean pointsZ yInd zInd
         pointsYInfl pointsZInfl nPointsZInfl
         nuInfl deltaInfl U0 Ue ReTauInfl ReTauPrec gamma
         xOrigin dt t0 tEnd timePrecision yInfl
         etaPrec etaInfl yPlusPrec yPlusInfl nInfl nInner).

(** Lines 190-196: the warning on the Reynolds numbers, the number of
    time-steps and its announcement. *)
Definition announce (env : Env) (s : vars) : M Z :=
  when (negb (Qle_bool (ReTauInfl s) (ReTauPrec s)))
    (print "WARNING: Re_tau in the precursor is lower than in the desired TBL") ;;
  size <- compute_size (t0 s) (dt s) (tEnd s) ;;
  when (rank env =? 0)
    (print ("Producing database with " ++ pretty size ++ " time-steps.")) ;;
  ret size.

(** Lines 226-248: the rescaled mean profile, its integral thicknesses
    and the generation of the inflow fields. *)
Definition generate (env : Env) (s : vars) (target : write_target) : M unit :=
  uMeanInfl <- lift (mod_lund_rescale_mean_velocity env
                 (mk_rescale_args (etaPrec s) (yPlusPrec s) (uMean s) (nInfl s) (nInner s)
                    (etaInfl s) (yPlusInfl s) (nPointsZInfl s) (Ue s) (U0 s) (gamma s))) ;;
  profile <- or_raise IndexError (Np.slice_axis1 uMeanInfl 0) ;;
  th <- lift (theta env (yInfl s) profile) ;;
  ds <- lift (delta_star env (yInfl s) profile) ;;
  when (rank env =? 0) (print "Generating the inflow fields.") ;;
  mod_lund_generate env
    (mk_generate_args (reader s) (dataDir s) (writer s) target
       (dt s) (t0 s) (tEnd s) (timePrecision s)
       (uMean s) uMeanInfl (etaPrec s) (yPlusPrec s) (pointsZ s)
       (etaInfl s) (yPlusInfl s) (pointsZInfl s)
       (nInfl s) (nInner s) (gamma s) (yInd s) (zInd s)
       (sampleSurfaceName s) (times s)) ;;
  when (rank env =? 0) (print "Done.").

(** Lines 184-248: the checks, the writer and the generation. *)
Definition finish (env : Env) (s : vars) : M unit :=
  check_delta (deltaInfl s) (yInfl s) ;;
  size <- announce env s ;;
  target <- prepare_writer env (writer s) (writePath s) (hdf5FileName s)
              (inletPatchName s) (pointsYInfl s) (pointsZInfl s)
              (xOrigin s) (t0 s) size ;;
  generate env s target.

(** The script. *)
Definition driver (env : Env) (configDict : gmap string string) : M unit :=
  s <- setup env configDict ;; finish env s.

End Driver.

(** ** The time-steps of the generator *)

Module Generator.

(** Modelled from the spec: [mod_lund_generate] lives in
    [eddylicious.generators.mod_lund_rescaling], which is not among the
    sources.  Section 6 of the specification has it write one velocity
    file per time-step "at the time labels t0, t0+dt, ..., tEnd": the
    progression that starts at [t0], advances by [dt] and stops before the
    first value above [tEnd].  [fuel] bounds the number of steps. *)
Fixpoint time_steps (fuel : nat) (t dt tEnd : Q) : list Q :=
  match fuel with
  | O => []
  | S fuel' =>
      if Qle_bool t tEnd then t :: time_steps fuel' (t + dt)%Q dt tEnd else []
  end.


(** Rounding of a rational to an integer, ties to the even neighbour. *)
Definition round_half_even (q : Q) : Z :=
  let n := Qnum q in
  let d := Z.pos (Qden q) in
  let fl := n / d in
  match 2 * (n mod d) ?= d with
  | Lt => fl
  | Gt => fl + 1
  | Eq => if Z.even fl then fl else fl + 1
  end.

Definition zero_pad (width : nat) (s : string) : string :=
  String.concat "" (repeat "0" (width - String.length s)) ++ s.

(** Modelled from the spec: the labels are "formatted to the configured
    decimal precision", as in ["0.000"], ["0.010"], ["0.020"] for a
    precision of 3: fixed-point notation with [prec] digits after the
    point. *)
Definition format_fixed (prec : nat) (q : Q) : string :=
  let scaled := round_half_even (Qabs q * inject_Z (10 ^ Z.of_nat prec)) in
  let digits := zero_pad (S prec) (pretty scaled) in
  let k := (String.length digits - prec)%nat in
  let body := if (prec =? 0)%nat then digits
              else substring 0 k digits ++ "." ++ substring k prec digits in
  if Qle_bool 0 q then body else "-" ++ body.


End Generator.

(** ** The boundary-layer extent as the specification reads it *)

Module Extent.

(** The number of coordinates at or below [bound]. *)
Definition count_at_or_below (bound : Q) (etas : list Q) : Z :=
  Z.of_nat (length (List.filter (fun eta => Qle_bool eta bound) etas)).



End Extent.

(** ** The layout of an archive *)

Module Layout.
Import Py.

Definition has_group (f : h5file) (path : list string) : Prop :=
  objects f !! path = Some Group.

Definition has_dataset (f : h5file) (path : list string) : Prop :=
  exists a, objects f !! path = Some (Dataset a).

Definition has_dataset_of_shape (f : h5file) (path : list string) (s : list nat) : Prop :=
  exists a, objects f !! path = Some (Dataset a) /\ Np.shape a = s.

(** The layout the specification calls output format A: a group
    [points] with [pointsY] and [pointsZ], a group [velocity] with
    [uMeanX], [uMeanY], [times] and the three components shaped
    [(nTimes, nPointsY, nPointsZ)], and the grid's dimensions and point
    count as attributes of the root. *)
Definition archive_layout (f : h5file) (nTimes nPointsY nPointsZ : nat) : Prop :=
  has_group f ["points"] /\
  has_dataset f ["points"; "pointsY"] /\
  has_dataset f ["points"; "pointsZ"] /\
  has_group f ["velocity"] /\
  has_dataset f ["velocity"; "uMeanX"] /\
  has_dataset f ["velocity"; "uMeanY"] /\
  has_dataset f ["velocity"; "times"] /\
  has_dataset_of_shape f ["velocity"; "uX"] [nTimes; nPointsY; nPointsZ] /\
  has_dataset_of_shape f ["velocity"; "uY"] [nTimes; nPointsY; nPointsZ] /\
  has_dataset_of_shape f ["velocity"; "uZ"] [nTimes; nPointsY; nPointsZ] /\
  attrs f !! "nPointsY" = Some (Z.of_nat nPointsY) /\
  attrs f !! "nPointsZ" = Some (Z.of_nat nPointsZ) /\
  attrs f !! "nPoints" = Some (Z.of_nat (nPointsY * nPointsZ)).

(** What the driver's hdf5 writer adds to the root of its file: the
    datasets [time], one row per time-step, and [velocity], one slab of
    three components per time-step. *)
Definition inflow_layout (f : h5file) (size nPoints : nat) : Prop :=
  has_dataset_of_shape f ["time"] [size; 1%nat] /\
  has_dataset_of_shape f ["velocity"] [size; nPoints; 3%nat].

End Layout.

(** ** Concrete inputs *)

Module Fixtures.
Import Py.

(** A mean-profile table with the columns y and Ux. *)
Definition two_columns : Np.ndarray := Np.mat 2 [[0; 0]; [1; 10]]%Q.

(** A mean-profile table with the columns y, Ux and Uy. *)
Definition three_columns : Np.ndarray := Np.mat 3 [[0; 0; 0]; [1; 10; 1]]%Q.

(** A grid of two wall-normal by one spanwise point. *)
Definition grid_2x1 : Np.ndarray := Np.mat 1 [[0]; [1]]%Q.

(** A grid of four wall-normal by one spanwise point. *)
Definition grid_4x1 : Np.ndarray := Np.mat 1 [[0]; [1]; [2]; [3]]%Q.

Definition float_table (s : string) : option Q :=
  if String.eqb s "0" then Some 0%Q
  else if String.eqb s "0.01" then Some (1 # 100)
  else if String.eqb s "0.02" then Some (2 # 100)
  else if String.eqb s "0.1" then Some (1 # 10)
  else if String.eqb s "0.2" then Some (2 # 10)
  else if String.eqb s "0.5" then Some (1 # 2)
  else if String.eqb s "1" then Some 1%Q
  else if String.eqb s "4" then Some 4%Q
  else if String.eqb s "10" then Some 10%Q
  else None.

(** A precursor case with the time directories [0.1] and [0.2], read by
    one process; [table] is what the mean-profile file holds. *)
Definition conv_env (table grid : Np.ndarray) : Converter.Env :=
  Converter.mk_Env 0 1
    (fun _ => Some ["0.2"; "0.1"])
    (fun _ => inr table)
    float_table
    (fun _ => "0.0")
    (fun _ _ _ => inr (grid, grid, [], []))
    (fun _ _ _ _ _ _ _ _ => inr (grid, grid, grid)).

Definition conv_args : Converter.Args :=
  Converter.mk_Args "case" "inlet" "db.hdf5" "uMean.xy".

(** Nothing printed yet, no archive on disk. *)
Definition fresh_world : World := mk_World [] ∅.

(** The collapsed mean profile [UMean_X.xy]: y and Ux in two rows. *)
Definition mean_table : Np.ndarray := Np.mat 2 [[1; 5]; [2; 10]]%Q.

(** The recycling plane: wall-normal coordinates 0, 1, 2. *)
Definition grid_3x1 : Np.ndarray := Np.mat 1 [[0]; [1]; [2]]%Q.

(** The inflow plane: wall-normal coordinates 0, 1, 2, 3. *)
Definition inflow_grid : Np.ndarray := Np.mat 1 [[0]; [1]; [2]; [3]]%Q.

(** A points writer that starts the archive with a group [points]
    holding the two coordinate arrays. *)
Definition write_points_sample (path : string) (pointsY pointsZ : Np.ndarray)
    (xVal : Q) : M unit :=
  h <- H5.open_append path ;;
  g <- H5.create_group h [] "points" ;;
  H5.create_dataset_data h g "pointsY" pointsY ;;
  H5.create_dataset_data h g "pointsZ" pointsZ ;;
  ret tt.

(** A precursor with two time directories and a boundary layer of
    thickness 1.98, read by one process; the generator of this environment
    leaves the structure of the archive as the script prepared it. *)
Definition driver_env : Driver.Env :=
  Driver.mk_Env 0
    (fun _ => Some ["0.2"; "0.1"])
    (fun _ => inr mean_table)
    float_table
    (fun s => if String.eqb s "3" then Some 3 else None)
    (fun _ _ => inr 1%Q)
    (fun x => x)
    (fun _ _ => inr (grid_3x1, grid_3x1, [], []))
    (fun _ => inr (inflow_grid, inflow_grid, [], []))
    (fun _ _ => inr (99 # 50))
    (fun _ _ => inr 0%Q)
    (fun _ _ => inr 0%Q)
    (fun _ _ _ _ => ret tt)
    write_points_sample
    (fun _ => inr (Np.mat 2 [[0; 0]; [5; 0]; [10; 0]; [10; 0]]%Q))
    (fun _ => ret tt).

(** A configuration with every key, for the given reader, writer and
    desired thickness; the time parameters are those of the end-to-end
    scenario of the specification. *)
Definition driver_cfg (reader writer delta99 : string) : gmap string string :=
  list_to_map
    [("readPath", "prec"); ("inflowReadPath", "infl"); ("writePath", "out");
     ("sampleSurfaceName", "plane"); ("inletPatchName", "inlet");
     ("reader", reader); ("inflowReader", "foamFile"); ("writer", writer);
     ("hdf5FileName", "db.hdf5");
     ("nuInflow", "1"); ("nuPrecursor", "1"); ("delta99", delta99);
     ("Ue", "10"); ("uTauInflow", "1"); ("uTauPrecursor", "1");
     ("xOrigin", "0"); ("yOrigin", "0");
     ("dt", "0.01"); ("t0", "0"); ("tEnd", "0.02"); ("tPrecision", "3")].

End Fixtures.

(** ** The configuration file *)

Module Config.
Import Py.

(** The characters [str.split()] treats as blanks in a byte string:
    space, tab, line feed, vertical tab, form feed, carriage return. *)
Definition is_space (c : ascii) : bool :=
  let n := nat_of_ascii c in
  (n =? 32)%nat || ((9 <=? n)%nat && (n <=? 13)%nat).

(** [s.split()]: the maximal runs of non-blank characters, in order;
    [cur] is the run being read. *)
Fixpoint split_from (s : string) (cur : string) : list string :=
  match s with
  | EmptyString => if String.eqb cur "" then [] else [cur]
  | String c rest =>
      if is_space c then
        if String.eqb cur "" then split_from rest ""
        else cur :: split_from rest ""
      else split_from rest (cur ++ String c "")
  end.

Definition py_split (s : string) : list string := split_from s "".

(** The line that holds a line feed only. *)
Definition newline : string := String (ascii_of_nat 10) "".

(** Line 39: [(line[0] == '#') or (line == '\n')]; [None] is the
    [IndexError] of [line[0]] on an empty string. *)
Definition skipped (line : string) : option bool :=
  match String.get 0 line with
  | None => None
  | Some c => Some (Ascii.eqb c "#" || String.eqb line newline)
  end.

(** Lines 39-41, the body of the loop: a comment or a bare line feed is
    passed over; any other line gives its first word as key and its second
    as value, and a line with fewer than two words raises [IndexError]. *)
Definition parse_line (configDict : gmap string string) (line : string)
  : exn + gmap string string :=
  match skipped line with
  | None => inl IndexError
  | Some true => inr configDict
  | Some false =>
      match py_split line with
      | key :: value :: _ => inr (<[key := value]> configDict)
      | _ => inl IndexError
      end
  end.

(** Lines 38-41: the loop over the lines of the file. *)
Fixpoint read_lines (lines : list string) (configDict : gmap string string)
  : exn + gmap string string :=
  match lines with
  | [] => inr configDict
  | line :: rest =>
      match parse_line configDict line with
      | inr d => read_lines rest d
      | inl e => inl e
      end
  end.

(** Lines 33-41, from the lines of the opened file. *)
Definition read_config (lines : list string) : exn + gmap string string :=
  read_lines lines ∅.

(** The whole script, lines 33-248, from the lines of the configuration
    file. *)
Definition run_config (env : Driver.Env) (lines : list string) : M unit :=
  configDict <- lift (read_config lines) ;; Driver.driver env configDict.

(** A line the loop takes a key and a value from. *)
Definition binds (line key value : string) : Prop :=
  skipped line = Some false /\
  exists more, py_split line = key :: value :: more.

(** A line the loop takes [key] from, whatever the value. *)
Definition mentions (line key : string) : Prop :=
  skipped line = Some false /\ head (py_split line) = Some key.

(** A line the loop stops at: empty, or with fewer than two words and
    neither a comment nor a bare line feed. *)
Definition malformed (line : string) : Prop :=
  skipped line = None \/
  (skipped line = Some false /\ (length (py_split line) < 2)%nat).

End Config.

(** ** Computations that leave the disk alone *)

Module Effects.
Import Py.

(** [c] ends, however it ends, with the files it started with. *)
Definition keeps_disk {A} (c : M A) : Prop :=
  forall w, disk (snd (c w)) = disk w.

(** [c] only adds lines to the standard output. *)
Definition only_prints {A} (c : M A) : Prop :=
  forall w, exists lines, snd (c w) = Driver.printed w lines.

End Effects.

(** ** The driver in two halves *)

Module DriverStages.
Import Py Driver.

(** Lines 33-196: everything before the writer is chosen. *)
Definition preamble (env : Env) (configDict : gmap string string) : M (vars * Z) :=
  s <- setup env configDict ;;
  check_delta (deltaInfl s) (yInfl s) ;;
  size <- announce env s ;;
  ret (s, size).

(** Lines 197-248: the writer and the generation. *)
Definition write_and_generate (env : Env) (s : vars) (size : Z) : M unit :=
  target <- prepare_writer env (writer s) (writePath s) (hdf5FileName s)
              (inletPatchName s) (pointsYInfl s) (pointsZInfl s)
              (xOrigin s) (t0 s) size ;;
  generate env s target.

End DriverStages.

(** ** Slabs of a three-dimensional dataset *)

Module Slabs.
Import Py.

(** [a[p, :, :]] of a three-dimensional array, flattened. *)
Definition slab (a : Np.ndarray) (p : nat) : list Q :=
  match Np.shape a with
  | [nt; ny; nz] => take (ny * nz) (drop (p * (ny * nz)) (Np.flat a))
  | _ => []
  end.

(** The file holds at [path] a dataset [a] of shape [(nt, ny, nz)] with
    all its elements. *)
Definition cube (f : h5file) (path : list string) (nt ny nz : nat)
    (a : Np.ndarray) : Prop :=
  objects f !! path = Some (Dataset a) /\
  Np.shape a = [nt; ny; nz] /\
  length (Np.flat a) = (nt * (ny * nz))%nat.

(** An array of the grid's shape with all its elements. *)
Definition plane (ny nz : nat) (v : Np.ndarray) : Prop :=
  Np.shape v = [ny; nz] /\ length (Np.flat v) = (ny * nz)%nat.

End Slabs.

(** ** What the conversion loop is given *)

Module Loop.
Import Py Slabs.

(** The position in the time series of step [i] of a chunk that starts
    at [offset]. *)
Definition position (offset : Z) (i : nat) : nat := Z.to_nat (offset + Z.of_nat i).

(** Steps [j .. j+n-1] of the chunk lie inside the time series, and the
    reader returns three planes of the grid's shape for each of them. *)
Definition readable (times : list string)
    (readFunc : string -> exn + (Np.ndarray * Np.ndarray * Np.ndarray))
    (ny nz : nat) (offset : Z) (j n : nat) : Prop :=
  forall i, (j <= i < j + n)%nat ->
    exists t vx vy vz,
      times !! position offset i = Some t /\
      readFunc t = inr (vx, vy, vz) /\
      plane ny nz vx /\ plane ny nz vy /\ plane ny nz vz.

(** The three velocity datasets of the archive [f]. *)
Definition cubes (f : h5file) (uX uY uZ : list string) (nt ny nz : nat)
    (aX aY aZ : Np.ndarray) : Prop :=
  cube f uX nt ny nz aX /\ cube f uY nt ny nz aY /\ cube f uZ nt ny nz aZ.

End Loop.

(** ** More concrete inputs *)

Module Fixtures2.
Import Py.

(** The environment of [Fixtures.driver_env] with a rescaling that
    rejects its input. *)
Definition failing_rescale_env : Driver.Env :=
  let e := Fixtures.driver_env in
  Driver.mk_Env (Driver.rank e) (Driver.listdir e) (Driver.genfromtxt e)
    (Driver.float_of_string e) (Driver.int_of_string e)
    (Driver.math_pow e) (Driver.np_sqrt e)
    (Driver.read_points_nPointsY e) (Driver.read_points_noZeros e)
    (Driver.delta_99 e) (Driver.theta e) (Driver.delta_star e)
    (Driver.write_points_to_tvmfv e) (Driver.write_points_to_hdf5 e)
    (fun _ => inl ValueError)
    (Driver.mod_lund_generate e).

(** The environment of [Fixtures.driver_env] with a [pow] that rejects
    its arguments. *)
Definition failing_pow_env : Driver.Env :=
  let e := Fixtures.driver_env in
  Driver.mk_Env (Driver.rank e) (Driver.listdir e) (Driver.genfromtxt e)
    (Driver.float_of_string e) (Driver.int_of_string e)
    (fun _ _ => inl ValueError) (Driver.np_sqrt e)
    (Driver.read_points_nPointsY e) (Driver.read_points_noZeros e)
    (Driver.delta_99 e) (Driver.theta e) (Driver.delta_star e)
    (Driver.write_points_to_tvmfv e) (Driver.write_points_to_hdf5 e)
    (Driver.mod_lund_rescale_mean_velocity e)
    (Driver.mod_lund_generate e).

(** The second of two processes on the precursor of [Fixtures.conv_env]. *)
Definition second_of_two : Converter.Env :=
  let e := Fixtures.conv_env Fixtures.two_columns Fixtures.grid_2x1 in
  Converter.mk_Env 1 2 (Converter.listdir e) (Converter.genfromtxt e)
    (Converter.float_of_string e) (Converter.str_of_float e)
    (Converter.read_points_from_foamfile e)
    (Converter.read_velocity_from_foamfile e).

End Fixtures2.

(** ** The order of [np.sort] on names *)

Module Order.


End Order.

(** * Properties *)

(** ** The chunk partitioner *)

Module PartitionerProps.
Import Partitioner.

Lemma length_running_offsets (sizes : list Z) :
  forall acc, length (running_offsets acc sizes) = length sizes.
Proof. induction sizes as [|c rest IH]; intros acc; simpl; [|rewrite IH]; reflexivity. Qed.

Lemma length_chunk_sizes (P N : Z) : length (chunk_sizes P N) = Z.to_nat P.
Proof. unfold chunk_sizes. now rewrite length_map, length_seq. Qed.

Lemma chunk_sizes_lookup (P N : Z) (k : nat) :
  (k < Z.to_nat P)%nat -> chunk_sizes P N !! k = Some (chunk_size P N k).
Proof.
  intros Hk. unfold chunk_sizes.
  rewrite list_lookup_fmap, lookup_seq_lt by exact Hk. reflexivity.
Qed.

(** The [k]-th offset is the start value plus the sizes before [k]. *)
Lemma running_offsets_lookup (sizes : list Z) :
  forall acc k, (k < length sizes)%nat ->
    running_offsets acc sizes !! k = Some (acc + zsum (take k sizes)).
Proof.
  induction sizes as [|c rest IH]; intros acc k Hk; simpl in Hk; [lia|].
  destruct k as [|k]; simpl.
  - f_equal. lia.
  - rewrite IH by lia. f_equal. unfold zsum. simpl. lia.
Qed.

Lemma zsum_app (l1 l2 : list Z) : zsum (l1 ++ l2) = zsum l1 + zsum l2.
Proof. induction l1 as [|x l1 IH]; simpl; [reflexivity|]. unfold zsum in *. simpl. lia. Qed.

Lemma zsum_take_S (l : list Z) (k : nat) (c : Z) :
  l !! k = Some c -> zsum (take (S k) l) = zsum (take k l) + c.
Proof.
  intros Hk. rewrite (take_S_r l k c Hk), zsum_app. unfold zsum. simpl. lia.
Qed.

(** Sum of the first [n] sizes: [n] times the quotient plus the part of
    the remainder already handed out. *)
Lemma zsum_chunk_prefix (P N : Z) (n : nat) :
  0 <= N mod P ->
  zsum (map (chunk_size P N) (seq 0 n)) = Z.of_nat n * (N / P) + Z.min (Z.of_nat n) (N mod P).
Proof.
  intros Hr. induction n as [|n IH].
  - simpl. lia.
  - rewrite seq_S, map_app, zsum_app, IH. simpl. unfold zsum, chunk_size. simpl.
    destruct (Z.ltb_spec (Z.of_nat n) (N mod P)); lia.
Qed.

Lemma zsum_chunk_sizes (P N : Z) : 1 <= P -> zsum (chunk_sizes P N) = N.
Proof.
  intros HP. unfold chunk_sizes.
  pose proof (Z.mod_pos_bound N P ltac:(lia)) as Hm.
  rewrite zsum_chunk_prefix by lia.
  rewrite Z2Nat.id by lia.
  pose proof (Z.div_mod N P ltac:(lia)). lia.
Qed.

(** Ranges built by a running sum over non-negative sizes tile
    [[acc, acc + zsum sizes)]: every index has an owner. *)
Lemma running_offsets_cover (sizes : list Z) :
  forall acc i, Forall (fun c => 0 <= c) sizes ->
    acc <= i < acc + zsum sizes ->
    exists k, owns sizes (running_offsets acc sizes) k i.
Proof.
  induction sizes as [|c rest IH]; intros acc i Hpos Hi.
  - unfold zsum in Hi. simpl in Hi. lia.
  - inversion Hpos as [|? ? Hc Hrest]; subst.
    unfold zsum in Hi. simpl in Hi. fold (zsum rest) in Hi.
    destruct (Z.lt_ge_cases i (acc + c)) as [Hlt|Hge].
    + exists 0%nat, acc, c. simpl. repeat split; auto; lia.
    + destruct (IH (acc + c) i Hrest ltac:(lia)) as (k & o & c' & Ho & Hc' & Hr).
      exists (S k), o, c'. simpl. auto.
Qed.

(** Offsets of a running sum over non-negative sizes never decrease. *)
Lemma running_offsets_ge (sizes : list Z) :
  forall acc k o, Forall (fun c => 0 <= c) sizes ->
    running_offsets acc sizes !! k = Some o -> acc <= o.
Proof.
  induction sizes as [|c rest IH]; intros acc k o Hpos Ho; [discriminate|].
  inversion Hpos as [|? ? Hc Hrest]; subst.
  destruct k as [|k]; simpl in Ho.
  - injection Ho as <-. lia.
  - specialize (IH _ _ _ Hrest Ho). lia.
Qed.

(** ... and no index has two owners. *)
Lemma running_offsets_disjoint (sizes : list Z) :
  forall acc i j k, Forall (fun c => 0 <= c) sizes ->
    owns sizes (running_offsets acc sizes) j i ->
    owns sizes (running_offsets acc sizes) k i -> j = k.
Proof.
  induction sizes as [|c rest IH]; intros acc i j k Hpos Hj Hk.
  - destruct Hj as (o & c & Ho & _). discriminate.
  - inversion Hpos as [|? ? Hc Hrest]; subst.
    destruct Hj as (oj & cj & Hoj & Hcj & Hrj), Hk as (ok & ck & Hok & Hck & Hrk).
    destruct j as [|j], k as [|k]; simpl in *.
    + reflexivity.
    + injection Hoj as <-. injection Hcj as <-.
      pose proof (running_offsets_ge _ _ _ _ Hrest Hok). lia.
    + injection Hok as <-. injection Hck as <-.
      pose proof (running_offsets_ge _ _ _ _ Hrest Hoj). lia.
    + f_equal. apply (IH (acc + c) i); auto.
      * exists oj, cj. auto.
      * exists ok, ck. auto.
Qed.

Lemma chunk_sizes_nonneg (P N : Z) :
  1 <= P -> 0 <= N -> Forall (fun c => 0 <= c) (chunk_sizes P N).
Proof.
  intros HP HN. unfold chunk_sizes. apply Forall_forall. intros c Hc.
  apply list_elem_of_fmap in Hc as (k & -> & _). unfold chunk_size.
  pose proof (Z.div_pos N P HN ltac:(lia)).
  destruct (_ <? _); lia.
Qed.

Lemma zsum_nonneg (l : list Z) : Forall (fun c => 0 <= c) l -> 0 <= zsum l.
Proof.
  induction 1 as [|c l Hc _ IH]; unfold zsum in *; simpl; lia.
Qed.

Lemma zsum_take_le (l : list Z) (k : nat) :
  Forall (fun c => 0 <= c) l -> 0 <= zsum (take k l) <= zsum l.
Proof.
  intros Hpos. rewrite <- (take_drop k l) at 3. rewrite zsum_app.
  pose proof (zsum_nonneg _ (Forall_take _ k _ Hpos)).
  pose proof (zsum_nonneg _ (Forall_drop _ k _ Hpos)). lia.
Qed.

(** The owner's range lies inside [[acc, acc + zsum sizes)]. *)
Lemma running_offsets_inside (sizes : list Z) (acc : Z) (k : nat) (i : Z) :
  Forall (fun c => 0 <= c) sizes ->
  owns sizes (running_offsets acc sizes) k i -> acc <= i < acc + zsum sizes.
Proof.
  intros Hpos (o & c & Ho & Hc & Hr).
  pose proof (lookup_lt_Some _ _ _ Hc) as Hk.
  rewrite running_offsets_lookup in Ho by exact Hk. injection Ho as <-.
  pose proof (zsum_take_S _ _ _ Hc) as HS.
  pose proof (zsum_take_le sizes k Hpos).
  pose proof (zsum_take_le sizes (S k) Hpos). lia.
Qed.

(** With a non-zero remainder the larger size is [ceil(N/P)]. *)
Lemma ceil_div (P N : Z) : 1 <= P -> 0 < N mod P -> (N + P - 1) / P = N / P + 1.
Proof.
  intros HP Hr. pose proof (Z.mod_pos_bound N P ltac:(lia)) as Hm.
  symmetry. apply (Z.div_unique_pos _ _ _ (N mod P - 1)); [lia|].
  pose proof (Z.div_mod N P ltac:(lia)). lia.
Qed.

(** C1. For every item count [N >= 0] and worker count [P >= 1],
    [chunks_and_offsets(P, N)] returns two arrays of length [P]; the sizes
    sum to [N]; [offsets[0] = 0] and each further offset is the previous
    offset plus the previous size; every size is [floor(N/P)] or
    [ceil(N/P)], any two sizes differ by at most one, and exactly the
    first [N mod P] workers hold the larger size; every index of [[0, N)]
    has exactly one owner, and no range reaches outside [[0, N)]. *)
Theorem chunks_and_offsets_partition (P N : Z) :
  1 <= P -> 0 <= N ->
  let (chunkSizes, offsets) := chunks_and_offsets P N in
  length chunkSizes = Z.to_nat P /\
  length offsets = Z.to_nat P /\
  zsum chunkSizes = N /\
  offsets !! 0%nat = Some 0 /\
  (forall k o c, offsets !! k = Some o -> chunkSizes !! k = Some c ->
     (S k < Z.to_nat P)%nat -> offsets !! S k = Some (o + c)) /\
  (forall k c, chunkSizes !! k = Some c -> c = N / P \/ c = (N + P - 1) / P) /\
  (forall j k cj ck, chunkSizes !! j = Some cj -> chunkSizes !! k = Some ck ->
     cj - ck <= 1) /\
  (forall k c, chunkSizes !! k = Some c ->
     c = if Z.of_nat k <? N mod P then N / P + 1 else N / P) /\
  (forall i, 0 <= i < N ->
     exists k, owns chunkSizes offsets k i /\
               forall k', owns chunkSizes offsets k' i -> k' = k) /\
  (forall k i, owns chunkSizes offsets k i -> 0 <= i < N).
Proof.
  intros HP HN. unfold chunks_and_offsets.
  pose proof (chunk_sizes_nonneg P N HP HN) as Hpos.
  pose proof (length_chunk_sizes P N) as Hlen.
  pose proof (zsum_chunk_sizes P N HP) as Hsum.
  assert (Hsize : forall k c, chunk_sizes P N !! k = Some c -> c = chunk_size P N k).
  { intros k c Hc. pose proof (lookup_lt_Some _ _ _ Hc) as Hk.
    rewrite chunk_sizes_lookup in Hc by lia. congruence. }
  repeat apply conj.
  - exact Hlen.
  - rewrite length_running_offsets. exact Hlen.
  - exact Hsum.
  - rewrite running_offsets_lookup by lia. simpl. reflexivity.
  - intros k o c Ho Hc HSk.
    rewrite running_offsets_lookup in Ho by lia. injection Ho as <-.
    rewrite running_offsets_lookup by lia.
    rewrite (zsum_take_S _ _ _ Hc). f_equal; lia.
  - intros k c Hc. rewrite (Hsize _ _ Hc). unfold chunk_size.
    destruct (Z.ltb_spec (Z.of_nat k) (N mod P)) as [Hlt|Hge].
    + right. rewrite ceil_div by lia. reflexivity.
    + left. lia.
  - intros j k cj ck Hj Hk. rewrite (Hsize _ _ Hj), (Hsize _ _ Hk).
    unfold chunk_size. repeat destruct (_ <? _); lia.
  - intros k c Hc. rewrite (Hsize _ _ Hc). unfold chunk_size.
    destruct (_ <? _); lia.
  - intros i Hi.
    destruct (running_offsets_cover (chunk_sizes P N) 0 i Hpos ltac:(lia)) as [k Hk].
    exists k. split; [exact Hk|].
    intros k' Hk'. exact (running_offsets_disjoint _ _ _ _ _ Hpos Hk' Hk).
  - intros k i Hk.
    pose proof (running_offsets_inside _ _ _ _ Hpos Hk). lia.
Qed.

(** Seven time-steps on three workers: sizes 3, 2, 2 at offsets 0, 3, 5. *)
Lemma chunks_and_offsets_partition_witness :
  chunks_and_offsets 3 7 = ([3; 2; 2], [0; 3; 5]) /\
  let (chunkSizes, offsets) := chunks_and_offsets 3 7 in
  length chunkSizes = Z.to_nat 3 /\
  length offsets = Z.to_nat 3 /\
  zsum chunkSizes = 7 /\
  offsets !! 0%nat = Some 0 /\
  (forall k o c, offsets !! k = Some o -> chunkSizes !! k = Some c ->
     (S k < Z.to_nat 3)%nat -> offsets !! S k = Some (o + c)) /\
  (forall k c, chunkSizes !! k = Some c -> c = 7 / 3 \/ c = (7 + 3 - 1) / 3) /\
  (forall j k cj ck, chunkSizes !! j = Some cj -> chunkSizes !! k = Some ck ->
     cj - ck <= 1) /\
  (forall k c, chunkSizes !! k = Some c ->
     c = if Z.of_nat k <? 7 mod 3 then 7 / 3 + 1 else 7 / 3) /\
  (forall i, 0 <= i < 7 ->
     exists k, owns chunkSizes offsets k i /\
               forall k', owns chunkSizes offsets k' i -> k' = k) /\
  (forall k i, owns chunkSizes offsets k i -> 0 <= i < 7).
Proof.
  split; [reflexivity|].
  apply (chunks_and_offsets_partition 3 7); lia.
Defined.

End PartitionerProps.

(** ** Stepping through a computation *)

Module PyProps.
Import Py.

Lemma bind_returned {A B} (c : M A) (k : A -> M B) (w w' : World) (a : A) :
  c w = (Returned a, w') -> bind c k w = k a w'.
Proof. intros H. unfold bind. rewrite H. reflexivity. Qed.

Lemma bind_raised {A B} (c : M A) (k : A -> M B) (w w' : World) (e : exn) :
  c w = (Raised e, w') -> bind c k w = (Raised e, w').
Proof. intros H. unfold bind. rewrite H. reflexivity. Qed.


(** A sequence that returns has returned at its first step. *)
Lemma bind_returned_inv {A B} (c : M A) (k : A -> M B) (w w' : World) (b : B) :
  bind c k w = (Returned b, w') ->
  exists a w1, c w = (Returned a, w1) /\ k a w1 = (Returned b, w').
Proof.
  unfold bind. destruct (c w) as [[a|e|s] w1]; intros H; try discriminate.
  exists a, w1. split; [reflexivity|exact H].
Qed.

Lemma or_raise_returned_inv {A} (e : exn) (o : option A) (w w' : World) (a : A) :
  or_raise e o w = (Returned a, w') -> o = Some a /\ w' = w.
Proof.
  destruct o as [x|]; simpl; unfold ret, raise; intros H; inversion H; auto.
Qed.

End PyProps.

(** ** The converter *)

Module ConverterProps.
Import Py Converter PyProps.

(** The string of the guard is not the name Python gives a program. *)
Lemma guard_string_differs : String.eqb "__main__" " __main__" = false.
Proof. reflexivity. Qed.

(** C2. Run as a program, the converter never calls [main]: the guard
    compares [__name__], which is ["__main__"], with [" __main__"], so the
    script returns at once; whatever the command line and the
    environment, nothing is printed, converted or written, and no output
    file is created. *)
Theorem program_never_calls_main (env : Env) (args : Args) (w : World) :
  run_as_program env args w = (Returned tt, w).
Proof.
  unfold run_as_program, script. rewrite guard_string_differs. reflexivity.
Qed.

Lemma norm_index_inside (n : nat) (j : nat) :
  (j < n)%nat -> Np.norm_index n (Z.of_nat j) = Some j.
Proof.
  intros H. unfold Np.norm_index.
  destruct (Z.leb_spec 0 (Z.of_nat j)); [|lia].
  destruct (Z.ltb_spec (Z.of_nat j) (Z.of_nat n)); [|lia].
  simpl. f_equal. lia.
Qed.

Lemma norm_index_beyond (n : nat) (j : nat) :
  (n <= j)%nat -> Np.norm_index n (Z.of_nat j) = None.
Proof.
  intros H. unfold Np.norm_index.
  destruct (Z.ltb_spec (Z.of_nat j) (Z.of_nat n)); [lia|].
  rewrite andb_false_r.
  destruct (Z.ltb_spec (Z.of_nat j) 0); [lia|]. reflexivity.
Qed.

Lemma slice_axis1_inside (a : Np.ndarray) (r c : nat) (rest : list nat) (j : nat) :
  Np.shape a = r :: c :: rest -> (j < c)%nat ->
  exists b, Np.slice_axis1 a (Z.of_nat j) = Some b /\ Np.shape b = r :: rest.
Proof.
  intros Hs Hj. unfold Np.slice_axis1. rewrite Hs, (norm_index_inside c j Hj).
  eexists. split; reflexivity.
Qed.

Lemma slice_axis1_beyond (a : Np.ndarray) (r c : nat) (rest : list nat) (j : nat) :
  Np.shape a = r :: c :: rest -> (c <= j)%nat ->
  Np.slice_axis1 a (Z.of_nat j) = None.
Proof.
  intros Hs Hj. unfold Np.slice_axis1. rewrite Hs, (norm_index_beyond c j Hj).
  reflexivity.
Qed.

Lemma read_mean_profile_raises (env : Env) (args : Args) (w : World)
    (uMean : Np.ndarray) (r c : nat) :
  genfromtxt env (uMeanFile args) = inr uMean ->
  Np.shape uMean = [r; c] ->
  read_mean_profile env args w = (Raised (profile_error c), w).
Proof.
  intros Hgen Hs. unfold read_mean_profile, profile_error.
  rewrite (bind_returned _ _ w w uMean) by (rewrite Hgen; reflexivity).
  destruct (Nat.le_gt_cases c 1) as [Hc1|Hc1].
  - (* no second column *)
    pose proof (slice_axis1_beyond uMean r c [] 1 Hs Hc1) as Hb.
    change (Z.of_nat 1) with 1 in Hb. rewrite Hb.
    destruct (Nat.leb_spec c 2); [reflexivity|lia].
  - destruct (slice_axis1_inside uMean r c [] 1 Hs Hc1) as (uMeanX & HX & HsX).
    change (Z.of_nat 1) with 1 in HX. rewrite HX.
    rewrite (bind_returned _ _ w w uMeanX) by reflexivity.
    rewrite Hs. simpl (_ !! _).
    rewrite (bind_returned _ _ w w c) by reflexivity.
    destruct (Nat.eqb_spec c 2) as [->|Hne].
    + (* two columns: the third is out of bounds *)
      pose proof (slice_axis1_beyond uMean r 2 [] 2 Hs (Nat.le_refl 2)) as Hb.
      change (Z.of_nat 2) with 2 in Hb. rewrite Hb.
      reflexivity.
    + (* three or more: zeros, then the file name is subscripted *)
      destruct (Nat.leb_spec c 2); [lia|]. reflexivity.
Qed.

(** C3. Whenever [np.genfromtxt] hands [main] a two-dimensional table,
    [main] ends in an exception and leaves the world as it found it, so
    no archive is created: [IndexError] from [uMean[:, 2]] for exactly two
    columns, [TypeError] from the subscript of the file name for three or
    more.  The readers of the grid and the archive stage are never
    reached: the outcome is the same for every environment that agrees on
    the directory listing and on the table. *)
Theorem main_raises_before_archive (env : Env) (args : Args) (w : World)
    (names : list string) (uMean : Np.ndarray) (r c : nat) :
  listdir env (data_dir args) = Some names ->
  genfromtxt env (uMeanFile args) = inr uMean ->
  Np.shape uMean = [r; c] ->
  (c = 2%nat -> main env args w = (Raised IndexError, w)) /\
  ((3 <= c)%nat -> main env args w = (Raised TypeError, w)) /\
  (exists e, main env args w = (Raised e, w)).
Proof.
  intros Hdir Hgen Hs.
  assert (Hmain : main env args w = (Raised (profile_error c), w)).
  { unfold main.
    rewrite (bind_returned _ _ w w names) by (rewrite Hdir; reflexivity).
    apply bind_raised. exact (read_mean_profile_raises env args w uMean r c Hgen Hs). }
  repeat apply conj.
  - intros ->. exact Hmain.
  - intros Hc. rewrite Hmain. unfold profile_error.
    destruct (Nat.leb_spec c 2); [lia|reflexivity].
  - eexists. exact Hmain.
Qed.

(** The two-column and the three-column table of the fixtures. *)
Lemma main_raises_before_archive_witness :
  main (Fixtures.conv_env Fixtures.two_columns Fixtures.grid_2x1)
       Fixtures.conv_args Fixtures.fresh_world
    = (Raised IndexError, Fixtures.fresh_world) /\
  main (Fixtures.conv_env Fixtures.three_columns Fixtures.grid_2x1)
       Fixtures.conv_args Fixtures.fresh_world
    = (Raised TypeError, Fixtures.fresh_world).
Proof.
  split.
  - apply (main_raises_before_archive
             (Fixtures.conv_env Fixtures.two_columns Fixtures.grid_2x1)
             Fixtures.conv_args Fixtures.fresh_world
             ["0.2"; "0.1"] Fixtures.two_columns 2 2);
      reflexivity.
  - apply (main_raises_before_archive
             (Fixtures.conv_env Fixtures.three_columns Fixtures.grid_2x1)
             Fixtures.conv_args Fixtures.fresh_world
             ["0.2"; "0.1"] Fixtures.three_columns 2 3);
      reflexivity.
Defined.

(** C7. The specification lets the profile file have two columns (y, Ux)
    or three (y, Ux, Uy) and wants both read without error.  The script
    tests [uMean.shape[1] == 2] before it reads the third column, so the
    two-column file of the fixtures ends in [IndexError]; the
    three-column one gets zeros for Uy and then ends in [TypeError] at
    the subscript of the file name.  Neither is converted. *)
Theorem profile_file_is_rejected :
  main (Fixtures.conv_env Fixtures.two_columns Fixtures.grid_2x1)
       Fixtures.conv_args Fixtures.fresh_world
    = (Raised IndexError, Fixtures.fresh_world) /\
  main (Fixtures.conv_env Fixtures.three_columns Fixtures.grid_2x1)
       Fixtures.conv_args Fixtures.fresh_world
    = (Raised TypeError, Fixtures.fresh_world).
Proof. split; vm_compute; reflexivity. Qed.

(** C8. The assertion of line 85 compares [nPointsY] with [uMean.size],
    the number of elements of the whole table, not with its number of
    rows.  With a two-row, two-column table a grid of two wall-normal
    points, which matches the profile, fails the assertion, and a grid of
    four, which does not, passes it. *)
Theorem grid_assertion_counts_elements (n m r c : nat) (gy tu : list Q) (w : World) :
  check_grid (Np.mk_ndarray [n; m] gy) (Np.mk_ndarray [r; c] tu) w
    = (if (n =? r * c)%nat then (Returned (n, m), w) else (Raised AssertionError, w)) /\
  check_grid Fixtures.grid_2x1 Fixtures.two_columns Fixtures.fresh_world
    = (Raised AssertionError, Fixtures.fresh_world) /\
  check_grid Fixtures.grid_4x1 Fixtures.two_columns Fixtures.fresh_world
    = (Returned (4%nat, 1%nat), Fixtures.fresh_world).
Proof.
  repeat apply conj.
  - unfold check_grid, unpack_shape2, bind, ret, py_assert, Np.size, Np.prod_shape.
    simpl. rewrite Nat.mul_1_r.
    destruct (n =? r * c)%nat; reflexivity.
  - vm_compute. reflexivity.
  - vm_compute. reflexivity.
Qed.

End ConverterProps.

(** ** h5py *)

Module H5Props.
Import Py H5 PyProps.

Lemma disk_upd (handle : string) (f : h5file) (w : World) :
  disk (upd handle f w) !! handle = Some f.
Proof. unfold upd. simpl. apply lookup_insert_eq. Qed.

Lemma upd_upd (handle : string) (f g : h5file) (w : World) :
  upd handle f (upd handle g w) = upd handle f w.
Proof. unfold upd. simpl. f_equal. apply insert_insert_eq. Qed.

Lemma create_object_ok (handle : string) (path : list string) (o : h5obj)
    (w : World) (f : h5file) :
  disk w !! handle = Some f -> objects f !! path = None ->
  create_object handle path o w = (Returned tt, upd handle (add_object path o f) w).
Proof.
  intros Hf Hp. unfold create_object, get_file, get_disk, bind, or_raise.
  rewrite Hf. unfold ret. rewrite Hp. reflexivity.
Qed.

Lemma create_object_inv (handle : string) (path : list string) (o : h5obj)
    (w w' : World) (u : unit) :
  create_object handle path o w = (Returned u, w') ->
  exists f, disk w !! handle = Some f /\ objects f !! path = None /\
            w' = upd handle (add_object path o f) w.
Proof.
  unfold create_object, get_file, get_disk, bind, or_raise.
  destruct (disk w !! handle) as [f|] eqn:Hf; unfold ret, raise; [|discriminate].
  destruct (objects f !! path) eqn:Hp; [discriminate|].
  unfold put_file, get_disk, put_disk, bind. intros H. inversion H. subst.
  exists f. split; [reflexivity|]. split; [exact Hp|reflexivity].
Qed.

Lemma create_group_ok (handle : string) (parent : list string) (name : string)
    (w : World) (f : h5file) :
  disk w !! handle = Some f -> objects f !! (parent ++ [name])%list = None ->
  create_group handle parent name w
    = (Returned (parent ++ [name])%list,
       upd handle (add_object (parent ++ [name])%list Group f) w).
Proof.
  intros Hf Hp. unfold create_group.
  rewrite (bind_returned _ _ _ _ _ (create_object_ok _ _ _ _ _ Hf Hp)). reflexivity.
Qed.

Lemma create_dataset_data_ok (handle : string) (parent : list string) (name : string)
    (a : Np.ndarray) (w : World) (f : h5file) :
  disk w !! handle = Some f -> objects f !! (parent ++ [name])%list = None ->
  create_dataset_data handle parent name a w
    = (Returned (parent ++ [name])%list,
       upd handle (add_object (parent ++ [name])%list (Dataset a) f) w).
Proof.
  intros Hf Hp. unfold create_dataset_data.
  rewrite (bind_returned _ _ _ _ _ (create_object_ok _ _ _ _ _ Hf Hp)). reflexivity.
Qed.

Lemma create_dataset_data_inv (handle : string) (parent : list string) (name : string)
    (a : Np.ndarray) (w w' : World) (p : list string) :
  create_dataset_data handle parent name a w = (Returned p, w') ->
  exists f, disk w !! handle = Some f /\ objects f !! (parent ++ [name])%list = None /\
            w' = upd handle (add_object (parent ++ [name])%list (Dataset a) f) w.
Proof.
  unfold create_dataset_data. intros H.
  apply bind_returned_inv in H as (u & w1 & Hc & Hr).
  apply create_object_inv in Hc as (f & Hf & Hp & ->).
  unfold ret in Hr. inversion Hr. subst. exists f. auto.
Qed.

Lemma set_attr_ok (handle key : string) (v : Z) (w : World) (f : h5file) :
  disk w !! handle = Some f ->
  set_attr handle key v w = (Returned tt, upd handle (add_attr key v f) w).
Proof.
  intros Hf. unfold set_attr, get_file, get_disk, bind, or_raise.
  rewrite Hf. reflexivity.
Qed.

(** After [h5py.File(name, 'a')] the file is on disk. *)
Lemma open_append_inv (name : string) (w w' : World) (handle : string) :
  open_append name w = (Returned handle, w') ->
  handle = name /\ is_Some (disk w' !! name).
Proof.
  unfold open_append, get_disk, bind.
  destruct (disk w !! name) as [f|] eqn:Hf; unfold ret, put_disk; intros H; inversion H; subst.
  - split; [reflexivity|]. rewrite Hf. eauto.
  - split; [reflexivity|]. simpl. rewrite lookup_insert_eq. eauto.
Qed.

End H5Props.

(** ** The archives the two scripts lay out *)

Module ArchiveProps.
Import Py H5 PyProps H5Props Layout.

Lemma floats_of_ok (env : Converter.Env) (times : list string) (w : World) :
  forall ts, mapM (Converter.float_of_string env) times = Some ts ->
    Converter.floats_of env times w = (Returned ts, w).
Proof.
  induction times as [|t rest IH]; intros ts H; simpl in *.
  - injection H as <-. reflexivity.
  - destruct (Converter.float_of_string env t) as [x|]; [|discriminate].
    simpl in H. destruct (mapM _ rest) as [xs|]; [|discriminate].
    simpl in H. injection H as <-.
    unfold bind, or_raise, ret. rewrite (IH xs eq_refl). reflexivity.
Qed.

Ltac file_step lem :=
  erewrite bind_returned;
  [| eapply lem; [first [eassumption | apply disk_upd] | reflexivity]];
  rewrite ?upd_upd.

(** The archive stage of the converter, started on a new file. *)
Lemma converter_archive_layout (env : Converter.Env) (dbFile : string)
    (times : list string) (pointsY pointsZ uMeanX uMeanY : Np.ndarray)
    (w : World) (nY nZ : nat) (ts : list Q) :
  disk w !! dbFile = Some h5empty ->
  Np.shape pointsY = [nY; nZ] ->
  mapM (Converter.float_of_string env) times = Some ts ->
  exists f,
    Converter.create_archive env dbFile times pointsY pointsZ uMeanX uMeanY w
      = (Returned (["velocity"; "uX"], ["velocity"; "uY"], ["velocity"; "uZ"]),
         upd dbFile f w) /\
    archive_layout f (length times) nY nZ.
Proof.
  intros Hnew Hshape Hts. unfold Converter.create_archive.
  file_step create_group_ok.
  file_step create_group_ok.
  file_step create_dataset_data_ok.
  file_step create_dataset_data_ok.
  file_step create_dataset_data_ok.
  file_step create_dataset_data_ok.
  erewrite bind_returned by (apply floats_of_ok; exact Hts).
  file_step create_dataset_data_ok.
  rewrite Hshape. simpl (_ !! _).
  erewrite bind_returned by reflexivity.
  erewrite bind_returned by reflexivity.
  unfold create_dataset_shape.
  file_step create_dataset_data_ok.
  file_step create_dataset_data_ok.
  file_step create_dataset_data_ok.
  erewrite bind_returned by (eapply set_attr_ok; apply disk_upd).
  rewrite upd_upd.
  erewrite bind_returned by (eapply set_attr_ok; apply disk_upd).
  rewrite upd_upd.
  erewrite bind_returned by (eapply set_attr_ok; apply disk_upd).
  rewrite upd_upd.
  eexists. split; [reflexivity|].
  unfold archive_layout, has_group, has_dataset, has_dataset_of_shape.
  unfold Np.size. rewrite Hshape.
  replace (Np.prod_shape [nY; nZ]) with (nY * nZ)%nat
    by (unfold Np.prod_shape; simpl; lia).
  repeat apply conj; try reflexivity; eexists; try split; reflexivity.
Qed.

Lemma time_column_inv (size : Z) (t0 : Q) (w w' : World) (col : Np.ndarray) :
  Driver.time_column size t0 w = (Returned col, w') ->
  0 <= size /\ Np.shape col = [Z.to_nat size; 1%nat] /\ w' = w.
Proof.
  unfold Driver.time_column.
  destruct (Z.ltb_spec size 0) as [Hneg|Hpos]; unfold raise, ret;
    intros Hret; inversion Hret; subst.
  split; [lia|]. split; reflexivity.
Qed.

(** The hdf5 stage of the driver, whatever [write_points_to_hdf5] put
    into the file: when it returns, the root of the archive holds the
    datasets [time] and [velocity]. *)
Lemma driver_archive_layout (env : Driver.Env) (writePath hdf5FileName : string)
    (pointsYInfl pointsZInfl : Np.ndarray) (xOrigin t0 : Q) (size : Z)
    (w w' : World) (target : Driver.write_target) :
  Driver.prepare_hdf5 env writePath hdf5FileName pointsYInfl pointsZInfl
    xOrigin t0 size w = (Returned target, w') ->
  exists f,
    target = Driver.Archive (path_join writePath hdf5FileName) /\
    disk w' !! path_join writePath hdf5FileName = Some f /\
    inflow_layout f (Z.to_nat size) (Np.size pointsZInfl).
Proof.
  unfold Driver.prepare_hdf5. intros H.
  apply bind_returned_inv in H as (u & w1 & _ & H).
  apply bind_returned_inv in H as (handle & w2 & Hopen & H).
  apply open_append_inv in Hopen as (-> & _).
  apply bind_returned_inv in H as (col & w3 & Hcol & H).
  apply time_column_inv in Hcol as (Hsize & Hshape & ->).
  apply bind_returned_inv in H as (p1 & w4 & Htime & H).
  apply create_dataset_data_inv in Htime as (f1 & Hf1 & _ & ->).
  apply bind_returned_inv in H as (p2 & w5 & Hvel & H).
  unfold create_dataset_shape in Hvel.
  apply create_dataset_data_inv in Hvel as (f2 & Hf2 & _ & ->).
  rewrite disk_upd in Hf2. injection Hf2 as <-.
  unfold ret in H. inversion H; subst.
  eexists. split; [reflexivity|]. split; [apply disk_upd|].
  unfold inflow_layout, has_dataset_of_shape, add_object. simpl.
  split.
  - exists col. split; [|exact Hshape].
    rewrite lookup_insert_ne by discriminate. apply lookup_insert_eq.
  - eexists. split; [apply lookup_insert_eq|reflexivity].
Qed.





End ArchiveProps.

(** ** The rescaling driver *)

Module DriverProps.
Import Py PyProps Driver Extent.

Lemma count_at_or_below_cons (bound eta : Q) (etas : list Q) :
  count_at_or_below bound (eta :: etas)
    = (if Qle_bool eta bound then 1 else 0) + count_at_or_below bound etas.
Proof.
  unfold count_at_or_below. simpl. destruct (Qle_bool eta bound); simpl length; lia.
Qed.

Lemma count_at_or_below_bounds (bound : Q) (etas : list Q) :
  0 <= count_at_or_below bound etas <= Z.of_nat (length etas).
Proof.
  induction etas as [|eta rest IH].
  - unfold count_at_or_below. simpl. lia.
  - rewrite count_at_or_below_cons. simpl length. destruct (Qle_bool eta bound); lia.
Qed.

(** The loop of lines 173-175 adds to its counter the number of
    coordinates at or below the last precursor coordinate. *)
Lemma count_loop_adds (etaPrec : Np.ndarray) (top : Q) :
  Np.item etaPrec (-1) = Some top ->
  forall etas n, count_loop etaPrec etas n = Some (n + count_at_or_below top etas).
Proof.
  intros Htop. induction etas as [|eta rest IH]; intros n.
  - simpl. unfold count_at_or_below. simpl. f_equal. lia.
  - simpl. unfold count_turn. rewrite Htop, IH, count_at_or_below_cons.
    destruct (Qle_bool eta top); f_equal; lia.
Qed.




Ltac invert_binds H :=
  repeat first
    [ apply bind_returned_inv in H as (? & ? & ? & H)
    | progress cbv zeta in H
    | match type of H with
      | context [match ?p with pair _ _ => _ end] => is_var p; destruct p
      end ].

Lemma with_foamFile_returned_inv {A} (name shown : string) (body : M A)
    (w w' : World) (a : A) :
  with_foamFile name shown body w = (Returned a, w') ->
  name = "foamFile" /\ body w = (Returned a, w').
Proof.
  unfold with_foamFile. destruct (String.eqb_spec name "foamFile") as [->|Hne].
  - auto.
  - unfold unknown_reader, bind, print, sys_exit. discriminate.
Qed.

Lemma lift_returned_inv {A} (r : exn + A) (w w' : World) (a : A) :
  lift r w = (Returned a, w') -> r = inr a /\ w' = w.
Proof.
  destruct r as [e|x]; simpl; unfold ret, raise; intros H; inversion H; auto.
Qed.

(** What [setup] leaves behind when it returns: the precursor's outer
    coordinate is the first column of the grid the reader returned, the
    inflow's is [yInfl / deltaInfl], and [nInfl] is what the loop counted
    on the two. *)
Lemma setup_counts (env : Env) (configDict : gmap string string)
    (w w' : World) (s : vars) :
  setup env configDict w = (Returned s, w') ->
  (exists path n pointsY pointsZ yInd zInd,
     read_points_nPointsY env path n = inr (pointsY, pointsZ, yInd, zInd) /\
     Np.slice_axis1 pointsY 0 = Some (etaPrec s)) /\
  etaInfl s = np_map (fun y => np_truediv y (deltaInfl s)) (yInfl s) /\
  count_nInfl (etaPrec s) (etaInfl s) = Some (nInfl s).
Proof.
  unfold setup. intros H. invert_binds H.
  unfold ret in H. inversion H; subst; clear H. simpl.
  repeat match goal with
         | Hr : or_raise _ _ _ = (Returned _, _) |- _ =>
             apply or_raise_returned_inv in Hr as (Hr & _)
         end.
  split; [|split].
  - match goal with
    | Hp : with_foamFile _ _ (bind (or_raise IndexError (_ !! 0%nat)) _) _ = _ |- _ =>
        apply with_foamFile_returned_inv in Hp as (_ & Hp);
        apply bind_returned_inv in Hp as (first & w1 & _ & Hp);
        apply lift_returned_inv in Hp as (Hp & _)
    end.
    eauto 10.
  - reflexivity.
  - assumption.
Qed.




(** *** Validation *)




Lemma check_delta_passes (deltaInfl top : Q) (yInfl : Np.ndarray) (w : World) :
  Np.item yInfl (-1) = Some top -> (deltaInfl <= top)%Q ->
  check_delta deltaInfl yInfl w = (Returned tt, w).
Proof.
  intros Htop Hle. unfold check_delta. rewrite Htop.
  rewrite (bind_returned _ _ w w top) by reflexivity.
  apply Qle_bool_iff in Hle. rewrite Hle. reflexivity.
Qed.





Ltac present :=
  match goal with
  | |- is_Some ?o => let v := eval vm_compute in o in
                     change (is_Some v); eexists; reflexivity
  end.


End DriverProps.

(** ** The time-steps of a run *)

Module TimeStepProps.
Import Py PyProps Driver Generator.

Local Open Scope Q_scope.







End TimeStepProps.

(** ** The definitions on small inputs *)

Module Examples.
Import Py.

Example chunks_more_workers_than_items :
  Partitioner.chunks_and_offsets 4 2 = ([1; 1; 0; 0], [0; 1; 2; 2]).
Proof. reflexivity. Qed.

Example second_column :
  Np.slice_axis1 Fixtures.two_columns 1 = Some (Np.vec [0; 10]%Q).
Proof. reflexivity. Qed.

Example no_third_column : Np.slice_axis1 Fixtures.two_columns 2 = None.
Proof. reflexivity. Qed.

Example last_item : Np.item (Np.vec [0; 1; 2]%Q) (-1) = Some 2%Q.
Proof. reflexivity. Qed.

Example table_size : Np.size Fixtures.two_columns = 4%nat.
Proof. reflexivity. Qed.

Example join_relative : path_join "case" "postProcessing" = "case/postProcessing".
Proof. reflexivity. Qed.

Example join_absolute : path_join "case" "/tmp/out" = "/tmp/out".
Proof. reflexivity. Qed.

Example sort_times : np_sort ["0.2"; "0.1"; "0.15"] = ["0.1"; "0.15"; "0.2"].
Proof. reflexivity. Qed.

Example int_truncates : py_int (- (7 # 2)) = -3 /\ py_int (7 # 2) = 3.
Proof. split; reflexivity. Qed.

Example status_of_bare_exit : exit_status (Exited None : outcome unit) = 0.
Proof. reflexivity. Qed.

Example status_of_exception : exit_status (Raised KeyError : outcome unit) = 1.
Proof. reflexivity. Qed.

Example steps_off_the_grid :
  map Qred (Generator.time_steps 10 0 (3 # 10) 1) = [0; 3 # 10; 3 # 5; 9 # 10]%Q.
Proof. reflexivity. Qed.

Example label_rounds : Generator.format_fixed 2 (- (12345 # 1000)) = "-12.34".
Proof. vm_compute. reflexivity. Qed.

(** A complete run of the driver with the hdf5 writer. *)
Example driver_run_output :
  let run := Driver.driver Fixtures.driver_env
               (Fixtures.driver_cfg "foamFile" "hdf5" "1") Fixtures.fresh_world in
  fst run = Returned tt /\
  stdout (snd run)
    = ["Reading from database with  2  time-steps.";
       "Producing database with 3 time-steps.";
       "Generating the inflow fields.";
       "Done."].
Proof. split; vm_compute; reflexivity. Qed.

End Examples.

(** * Further properties of the two scripts *)

(** ** The configuration file *)

Module ConfigProps.
Import Py PyProps Config.

Example split_words :
  py_split ("dt   0.01 extra" ++ newline) = ["dt"; "0.01"; "extra"].
Proof. reflexivity. Qed.

Example indented_comment_binds :
  parse_line ∅ (" # note" ++ newline) = inr {["#" := "note"]}.
Proof. reflexivity. Qed.

Example blank_line_with_spaces :
  parse_line ∅ ("  " ++ newline) = inl IndexError.
Proof. reflexivity. Qed.

Lemma read_lines_app (l1 l2 : list string) :
  forall d, read_lines (l1 ++ l2)%list d
            = match read_lines l1 d with
              | inr d' => read_lines l2 d'
              | inl e => inl e
              end.
Proof.
  induction l1 as [|line l1 IH]; intros d; simpl; [reflexivity|].
  destruct (parse_line d line) as [e|d']; [reflexivity|apply IH].
Qed.

Lemma binds_mentions (line key value : string) :
  binds line key value -> mentions line key.
Proof. intros (Hs & more & Hw). split; [exact Hs|]. rewrite Hw. reflexivity. Qed.

(** What one line does to the dictionary. *)
Lemma parse_line_cases (d : gmap string string) (line : string) :
  (skipped line = Some true /\ parse_line d line = inr d) \/
  (exists key value, binds line key value /\
                     parse_line d line = inr (<[key := value]> d)) \/
  (malformed line /\ parse_line d line = inl IndexError).
Proof.
  unfold parse_line, binds, malformed.
  destruct (skipped line) as [[|]|] eqn:Hs.
  - left. auto.
  - destruct (py_split line) as [|key [|value more]] eqn:Hw.
    + right. right. split; [right; simpl; split; [reflexivity|lia]|reflexivity].
    + right. right. split; [right; simpl; split; [reflexivity|lia]|reflexivity].
    + right. left. exists key, value. split; [|reflexivity]. split; eauto.
  - right. right. split; [left; reflexivity|reflexivity].
Qed.

Lemma skipped_not_mentioned (line key : string) :
  skipped line = Some true -> ~ mentions line key.
Proof. intros Hs (Hf & _). congruence. Qed.

Lemma malformed_not_bound (line key value : string) :
  malformed line -> ~ binds line key value.
Proof.
  intros [Hn|(_ & Hlen)] (Hs & more & Hw); [congruence|].
  rewrite Hw in Hlen. simpl in Hlen. lia.
Qed.

(** The dictionary after the loop, started from [d]: a key holds the
    value of the last line that binds it, or its value in [d] when no line
    mentions it. *)
Lemma read_lines_lookup (lines : list string) :
  forall d m, read_lines lines d = inr m ->
  forall key value,
    m !! key = Some value <->
    (exists before line after,
        lines = (before ++ line :: after)%list /\ binds line key value /\
        Forall (fun l => ~ mentions l key) after) \/
    (d !! key = Some value /\ Forall (fun l => ~ mentions l key) lines).
Proof.
  induction lines as [|line rest IH]; intros d m Hread key value.
  - simpl in Hread. injection Hread as <-. split.
    + intros H. right. split; [exact H|constructor].
    + intros [(before & l & after & Heq & _)|(H & _)]; [|exact H].
      destruct before; discriminate.
  - simpl in Hread.
    destruct (parse_line_cases d line)
      as [(Hskip & Hp)|[(k & v & Hb & Hp)|(Hbad & Hp)]];
      rewrite Hp in Hread; [| |discriminate].
    + (* a comment or a bare line feed *)
      rewrite (IH d m Hread key value). split.
      * intros [(before & l & after & -> & Hl & Hafter)|(Hd & Hrest)].
        -- left. exists (line :: before), l, after. auto.
        -- right. split; [exact Hd|]. constructor; [|exact Hrest].
           apply skipped_not_mentioned, Hskip.
      * intros [(before & l & after & Heq & Hl & Hafter)|(Hd & Hall)].
        -- destruct before as [|b before]; simpl in Heq; injection Heq as <- ->.
           ++ destruct Hl as (Hf & _). congruence.
           ++ left. eauto 6.
        -- right. split; [exact Hd|]. inversion Hall; assumption.
    + (* a line that binds k to v *)
      rewrite (IH _ m Hread key value). split.
      * intros [(before & l & after & -> & Hl & Hafter)|(Hd & Hrest)].
        -- left. exists (line :: before), l, after. auto.
        -- destruct (decide (k = key)) as [->|Hne].
           ++ rewrite lookup_insert_eq in Hd. injection Hd as ->.
              left. exists [], line, rest. auto.
           ++ rewrite lookup_insert_ne in Hd by exact Hne.
              right. split; [exact Hd|]. constructor; [|exact Hrest].
              intros (_ & Hhead). destruct Hb as (_ & more & Hw).
              rewrite Hw in Hhead. simpl in Hhead. congruence.
      * intros [(before & l & after & Heq & Hl & Hafter)|(Hd & Hall)].
        -- destruct before as [|b before]; simpl in Heq; injection Heq as <- ->.
           ++ right. split; [|exact Hafter].
              destruct Hb as (_ & more & Hw), Hl as (_ & more' & Hw').
              rewrite Hw in Hw'. injection Hw' as -> -> _.
              apply lookup_insert_eq.
           ++ left. eauto 6.
        -- inversion Hall as [|? ? Hline Hrest]; subst.
           right. split; [|exact Hrest].
           rewrite lookup_insert_ne; [exact Hd|].
           intros ->. apply Hline. eapply binds_mentions, Hb.
Qed.

(** X1. When the configuration file is read without error, a key holds
    the second word of the last line whose first word it is, and only
    keys that some line binds are in the dictionary: later lines override
    earlier ones, and words after the second are dropped. *)
Theorem read_config_lookup (lines : list string) (m : gmap string string) :
  read_config lines = inr m ->
  forall key value,
    m !! key = Some value <->
    exists before line after,
      lines = (before ++ line :: after)%list /\ binds line key value /\
      Forall (fun l => ~ mentions l key) after.
Proof.
  intros Hread key value. unfold read_config in Hread.
  rewrite (read_lines_lookup lines ∅ m Hread key value). split.
  - intros [H|(H & _)]; [exact H|]. rewrite lookup_empty in H. discriminate.
  - intros H. left. exact H.
Qed.

(** Two lines for [dt]: the second one counts. *)
Lemma read_config_lookup_witness :
  exists m,
    read_config ["# time" ++ newline; "dt 0.01" ++ newline;
                 newline; "dt 0.02 seconds" ++ newline] = inr m /\
    m !! "dt" = Some "0.02".
Proof.
  eexists. split; [reflexivity|].
  apply (read_config_lookup
           ["# time" ++ newline; "dt 0.01" ++ newline;
            newline; "dt 0.02 seconds" ++ newline] _ eq_refl "dt" "0.02").
  exists ["# time" ++ newline; "dt 0.01" ++ newline; newline],
         ("dt 0.02 seconds" ++ newline), [].
  split; [reflexivity|]. split; [|constructor].
  split; [reflexivity|]. exists ["seconds"]. reflexivity.
Defined.

(** X2. Reading the configuration file fails exactly when some line is
    malformed: an empty string, or a line that is neither a comment nor a
    bare line feed and has fewer than two words (a line of blanks, a key
    without a value).  The failure is an [IndexError]. *)
Theorem read_config_fails_on_malformed_line (lines : list string) :
  (forall e, read_config lines = inl e -> e = IndexError) /\
  (read_config lines = inl IndexError <-> Exists malformed lines).
Proof.
  unfold read_config. generalize (∅ : gmap string string) as d.
  induction lines as [|line rest IH]; intros d.
  - simpl. split; [discriminate|]. split; [discriminate|].
    intros H. inversion H.
  - simpl.
    destruct (parse_line_cases d line)
      as [(Hskip & Hp)|[(k & v & Hb & Hp)|(Hbad & Hp)]]; rewrite Hp.
    + destruct (IH d) as (Hexn & Hiff). split; [exact Hexn|].
      rewrite Hiff. split; [intros H; right; exact H|].
      intros H. inversion H as [? ? Hm|? ? Hm]; subst; [|exact Hm].
      destruct Hm as [Hn|(Hf & _)]; congruence.
    + destruct (IH (<[k := v]> d)) as (Hexn & Hiff). split; [exact Hexn|].
      rewrite Hiff. split; [intros H; right; exact H|].
      intros H. inversion H as [? ? Hm|? ? Hm]; subst; [|exact Hm].
      exfalso. exact (malformed_not_bound _ _ _ Hm Hb).
    + split; [intros e He; congruence|].
      split; [intros _; left; exact Hbad|reflexivity].
Qed.

(** A key without a value stops the reading. *)
Lemma read_config_fails_on_malformed_line_witness :
  read_config [("dt 0.01" ++ newline)%string; ("tEnd" ++ newline)%string]
  = inl IndexError.
Proof.
  apply (proj2 (read_config_fails_on_malformed_line
                  [("dt 0.01" ++ newline)%string; ("tEnd" ++ newline)%string])).
  right. left. right. split; [reflexivity|simpl; lia].
Defined.

(** X3. A comment line (first character [#]) or a bare line feed can be
    put anywhere in the file without changing what is read, be it the
    dictionary or the error. *)
Theorem read_config_ignores_comments (before after : list string) (line : string) :
  skipped line = Some true ->
  read_config (before ++ line :: after)%list = read_config (before ++ after)%list.
Proof.
  intros Hskip. unfold read_config. rewrite !read_lines_app.
  destruct (read_lines before ∅) as [e|d]; [reflexivity|].
  simpl. unfold parse_line. rewrite Hskip. reflexivity.
Qed.

Lemma read_config_ignores_comments_witness :
  read_config ([("dt 0.01" ++ newline)%string] ++ ("#dt 5" ++ newline)%string
                 :: [("t0 0" ++ newline)%string])%list
    = read_config ([("dt 0.01" ++ newline)%string] ++ [("t0 0" ++ newline)%string])%list.
Proof.
  apply (read_config_ignores_comments ["dt 0.01" ++ newline] ["t0 0" ++ newline]
           ("#dt 5" ++ newline)).
  reflexivity.
Defined.

End ConfigProps.

(** ** Inverting the stages of the driver *)

Module DriverInv.
Import Py PyProps Driver Extent DriverProps.

Lemma cfg_inv (d : gmap string string) (key : string) (w w' : World) (v : string) :
  cfg d key w = (Returned v, w') -> d !! key = Some v /\ w' = w.
Proof. unfold cfg. apply or_raise_returned_inv. Qed.

Lemma cfg_float_inv (env : Env) (d : gmap string string) (key : string)
    (w w' : World) (x : Q) :
  cfg_float env d key w = (Returned x, w') ->
  (exists str, d !! key = Some str /\ float_of_string env str = Some x) /\ w' = w.
Proof.
  unfold cfg_float. intros H.
  apply bind_returned_inv in H as (str & w1 & Hc & H).
  apply cfg_inv in Hc as (Hc & ->).
  apply or_raise_returned_inv in H as (H & ->). eauto.
Qed.

Lemma cfg_int_inv (env : Env) (d : gmap string string) (key : string)
    (w w' : World) (x : Z) :
  cfg_int env d key w = (Returned x, w') ->
  (exists str, d !! key = Some str /\ int_of_string env str = Some x) /\ w' = w.
Proof.
  unfold cfg_int. intros H.
  apply bind_returned_inv in H as (str & w1 & Hc & H).
  apply cfg_inv in Hc as (Hc & ->).
  apply or_raise_returned_inv in H as (H & ->). eauto.
Qed.

Lemma truediv_inv (a b : Q) (w w' : World) (q : Q) :
  truediv a b w = (Returned q, w') -> ~ (b == 0)%Q /\ q = (a / b)%Q /\ w' = w.
Proof.
  unfold truediv. destruct (Qeq_bool b 0) eqn:E; unfold raise, ret; intros H;
    inversion H; subst.
  split; [|auto]. intros Hb. apply Qeq_bool_iff in Hb. congruence.
Qed.

Lemma unpack_shape2_inv (a : Np.ndarray) (w w' : World) (dims : nat * nat) :
  Converter.unpack_shape2 a w = (Returned dims, w') ->
  Np.shape a = [fst dims; snd dims] /\ w' = w.
Proof.
  unfold Converter.unpack_shape2.
  destruct (Np.shape a) as [|n [|m [|? ?]]]; unfold raise, ret; intros H;
    inversion H; subst. auto.
Qed.

Lemma when_print_inv (b : bool) (line : string) (w w' : World) (u : unit) :
  when b (print line) w = (Returned u, w') ->
  w' = printed w (if b then [line] else []).
Proof.
  destruct b; simpl; unfold print, ret, printed; intros H;
    apply (f_equal snd) in H; simpl in H; subst w'.
  - reflexivity.
  - destruct w. simpl. rewrite app_nil_r. reflexivity.
Qed.

Lemma friction_velocity_inv (env : Env) (d : gmap string string) (Ue ReDelta : Q)
    (w w' : World) (uTau : Q) :
  friction_velocity env d Ue ReDelta w = (Returned uTau, w') ->
  ~ (ReDelta == 0)%Q /\ w' = w.
Proof.
  unfold friction_velocity. intros H.
  apply bind_returned_inv in H as (inv & w1 & Hinv & H).
  apply truediv_inv in Hinv as (Hnz & _ & ->).
  apply bind_returned_inv in H as (sixth & w2 & Hsixth & H).
  apply truediv_inv in Hsixth as (_ & _ & ->).
  apply bind_returned_inv in H as (p & w3 & Hp & H).
  apply lift_returned_inv in Hp as (_ & ->).
  apply bind_returned_inv in H as (mode & w4 & Hmode & H).
  apply cfg_inv in Hmode as (_ & ->).
  split; [exact Hnz|].
  destruct (String.eqb mode "compute").
  - unfold ret in H. inversion H. reflexivity.
  - apply cfg_float_inv in H as (_ & ->). reflexivity.
Qed.

Lemma printed_nil (w : World) : printed w [] = w.
Proof. destruct w. unfold printed. simpl. rewrite app_nil_r. reflexivity. Qed.

Lemma printed_printed (w : World) (l1 l2 : list string) :
  printed (printed w l1) l2 = printed w (l1 ++ l2)%list.
Proof. unfold printed. simpl. rewrite app_assoc. reflexivity. Qed.

Ltac tidy_step :=
  match goal with
  | H : cfg _ _ _ = (Returned _, _) |- _ => apply cfg_inv in H as (H & ->)
  | H : cfg_float _ _ _ _ = (Returned _, _) |- _ => apply cfg_float_inv in H as (H & ->)
  | H : cfg_int _ _ _ _ = (Returned _, _) |- _ => apply cfg_int_inv in H as (H & ->)
  | H : truediv _ _ _ = (Returned _, _) |- _ => apply truediv_inv in H as (H & -> & ->)
  | H : or_raise _ _ _ = (Returned _, _) |- _ =>
      apply or_raise_returned_inv in H as (H & ->)
  | H : lift _ _ = (Returned _, _) |- _ => apply lift_returned_inv in H as (H & ->)
  | H : Converter.unpack_shape2 _ _ = (Returned _, _) |- _ =>
      apply unpack_shape2_inv in H as (H & ->)
  | H : friction_velocity _ _ _ _ _ = (Returned _, _) |- _ =>
      apply friction_velocity_inv in H as (H & ->)
  | H : when _ (print _) _ = (Returned _, _) |- _ =>
      apply when_print_inv in H; subst
  | H : with_foamFile _ _ _ _ = (Returned _, _) |- _ =>
      let Hname := fresh "Hname" in
      apply with_foamFile_returned_inv in H as (Hname & H)
  | H : ret _ _ = (Returned _, _) |- _ => unfold ret in H; inversion H; subst; clear H
  | H : bind _ _ _ = (Returned _, _) |- _ =>
      apply bind_returned_inv in H as (? & ? & ? & H)
  end.

(** The line process 0 prints on line 72. *)
Definition reading_line (n : nat) : string :=
  "Reading from database with  " ++ pretty (Z.of_nat n) ++ "  time-steps.".

(** What is known once [setup] has returned. *)
Lemma setup_inv (env : Env) (configDict : gmap string string)
    (w w' : World) (s : vars) :
  setup env configDict w = (Returned s, w') ->
  configDict !! "reader" = Some "foamFile" /\
  reader s = "foamFile" /\
  configDict !! "inflowReader" = Some "foamFile" /\
  configDict !! "writer" = Some (writer s) /\
  (exists names, listdir env (dataDir s) = Some names /\ times s = np_sort names) /\
  (exists first, times s !! 0%nat = Some first) /\
  (exists col, uMean s = prepend_zero col) /\
  np_max (uMean s) = Some (U0 s) /\
  ~ (nuInfl s == 0)%Q /\
  ~ (Ue s * deltaInfl s / nuInfl s == 0)%Q /\
  nInner s = count_nInner (etaInfl s) /\
  w' = printed w (if rank env =? 0 then [reading_line (length (times s))] else []).
Proof.
  unfold setup. intros H. invert_binds H. repeat tidy_step.
  match goal with
  | Hg : (if ?b then _ else _) _ = (Returned _, _) |- _ =>
      destruct b; repeat tidy_step
  end; simpl; unfold reading_line; repeat apply conj; eauto.
Qed.

End DriverInv.

(** ** Configurations the driver does not accept *)

Module DriverValidation.
Import Py PyProps Driver Extent DriverProps DriverInv Config ConfigProps.

(** Without one of the nine names [setup] ends in [KeyError] at once. *)
Lemma setup_missing_name (env : Env) (configDict : gmap string string)
    (w : World) (key : string) :
  In key name_keys -> configDict !! key = None ->
  setup env configDict w = (Raised KeyError, w).
Proof.
  intros Hin Hnone. unfold setup.
  repeat match goal with
         | |- bind (cfg configDict ?k) _ w = _ =>
             let v := fresh "v" in
             let Hv := fresh "Hv" in
             destruct (configDict !! k) as [v|] eqn:Hv;
             [ rewrite (bind_returned _ _ w w v) by (unfold cfg; rewrite Hv; reflexivity)
             | apply bind_raised; unfold cfg; rewrite Hv; reflexivity ]
         end.
  exfalso. unfold name_keys in Hin. simpl in Hin.
  repeat destruct Hin as [<-|Hin]; congruence || exact Hin.
Qed.

(** X4. When the configuration file is read without error but has no
    line for one of the nine keys of lines 43-54 ([readPath],
    [inflowReadPath], [writePath], [sampleSurfaceName], [inletPatchName],
    [reader], [inflowReader], [writer], [hdf5FileName]), the script ends in
    an uncaught [KeyError] before it prints or reads anything: the world
    is unchanged and the exit status is 1. *)
Theorem script_missing_key (env : Env) (lines : list string) (w : World)
    (m : gmap string string) (key : string) :
  read_config lines = inr m ->
  In key name_keys ->
  Forall (fun l => ~ mentions l key) lines ->
  run_config env lines w = (Raised KeyError, w) /\
  exit_status (fst (run_config env lines w)) = 1.
Proof.
  intros Hread Hin Hnone.
  assert (Hm : m !! key = None).
  { destruct (m !! key) as [v|] eqn:Hv; [|reflexivity]. exfalso.
    apply (read_lines_lookup lines ∅ m Hread key v) in Hv
      as [(before & l & after & -> & Hb & _)|(He & _)].
    - rewrite Forall_app, Forall_cons in Hnone. destruct Hnone as (_ & Hl & _).
      apply Hl. eapply binds_mentions, Hb.
    - rewrite lookup_empty in He. discriminate. }
  assert (Hrun : run_config env lines w = (Raised KeyError, w)).
  { unfold run_config. rewrite Hread. simpl.
    rewrite (bind_returned _ _ w w m) by reflexivity.
    unfold driver. apply bind_raised. exact (setup_missing_name env m w key Hin Hm). }
  rewrite Hrun. split; reflexivity.
Qed.

(** A file that names everything but the writer. *)
Lemma script_missing_key_witness :
  run_config Fixtures.driver_env
    [("readPath prec" ++ newline)%string; ("reader foamFile" ++ newline)%string]
    Fixtures.fresh_world
  = (Raised KeyError, Fixtures.fresh_world).
Proof.
  apply (script_missing_key Fixtures.driver_env
           [("readPath prec" ++ newline)%string; ("reader foamFile" ++ newline)%string]
           Fixtures.fresh_world
           (<["reader" := "foamFile"]> (<["readPath" := "prec"]> ∅)) "writer").
  - reflexivity.
  - unfold name_keys. simpl. tauto.
  - repeat constructor; intros (_ & Hh); vm_compute in Hh; discriminate.
Defined.






End DriverValidation.

(** ** The quantities [setup] computes *)

Module DriverQuantities.
Import Py PyProps Driver Extent DriverProps DriverInv.

Local Open Scope Q_scope.




(** The loop of lines 179-181 counts the coordinates at or below 0.7. *)
Lemma count_nInner_spec (a : Np.ndarray) :
  count_nInner a = count_at_or_below (7 # 10) (Np.flat a).
Proof.
  unfold count_nInner.
  assert (H : forall l n,
             fold_left (fun n eta => if Qle_bool eta (7 # 10) then (n + 1)%Z else n) l n
             = (n + count_at_or_below (7 # 10) l)%Z).
  { induction l as [|eta l IH]; intros n; simpl.
    - unfold count_at_or_below. simpl. lia.
    - rewrite IH, count_at_or_below_cons. destruct (Qle_bool eta (7 # 10)); lia. }
  rewrite H. lia.
Qed.

(** A larger bound has at least as many coordinates below it. *)
Lemma count_at_or_below_mono (b1 b2 : Q) (l : list Q) :
  b1 <= b2 -> (count_at_or_below b1 l <= count_at_or_below b2 l)%Z.
Proof.
  intros Hb. induction l as [|eta l IH].
  - unfold count_at_or_below. simpl. lia.
  - rewrite !count_at_or_below_cons.
    destruct (Qle_bool eta b1) eqn:E1, (Qle_bool eta b2) eqn:E2; try lia.
    apply Qle_bool_iff in E1.
    assert (E : Qle_bool eta b2 = true)
      by (apply Qle_bool_iff; eapply Qle_trans; eauto).
    congruence.
Qed.

(** X7. [nInner] is the number of inflow points with [etaInfl <= 0.7],
    between 0 and the number of inflow points.  It is at most [nInfl]
    when the last precursor coordinate is 0.7 or more, and at least
    [nInfl] when that coordinate is 0.7 or less: on a precursor that ends
    below 0.7 the inner region reaches beyond the points counted by
    [nInfl]. *)
Theorem nInner_against_nInfl (env : Env) (configDict : gmap string string)
    (w w' : World) (s : vars) (top : Q) :
  setup env configDict w = (Returned s, w') ->
  Np.item (etaPrec s) (-1) = Some top ->
  nInner s = count_at_or_below (7 # 10) (Np.flat (etaInfl s)) /\
  (0 <= nInner s <= Z.of_nat (length (Np.flat (etaInfl s))))%Z /\
  (7 # 10 <= top -> (nInner s <= nInfl s)%Z) /\
  (top <= 7 # 10 -> (nInfl s <= nInner s)%Z).
Proof.
  intros Hsetup Htop.
  destruct (setup_inv env configDict w w' s Hsetup)
    as (_ & _ & _ & _ & _ & _ & _ & _ & _ & _ & Hinner & _).
  destruct (setup_counts env configDict w w' s Hsetup) as (_ & _ & Hcount).
  unfold count_nInfl in Hcount. rewrite (count_loop_adds _ _ Htop) in Hcount.
  injection Hcount as Hn. rewrite Z.add_0_l in Hn.
  rewrite Hinner, count_nInner_spec, <- Hn.
  split; [reflexivity|]. split; [apply count_at_or_below_bounds|].
  split; intros Hb; apply count_at_or_below_mono, Hb.
Qed.

(** The fixtures: the precursor ends at 2, and one inflow point (0) is at
    or below 0.7 against three at or below 2. *)
Lemma nInner_against_nInfl_witness :
  exists s w',
    setup Fixtures.driver_env (Fixtures.driver_cfg "foamFile" "hdf5" "1")
          Fixtures.fresh_world = (Returned s, w') /\
    nInner s = 1%Z /\ (nInner s <= nInfl s)%Z.
Proof.
  destruct (setup Fixtures.driver_env (Fixtures.driver_cfg "foamFile" "hdf5" "1")
                  Fixtures.fresh_world) as [[s|e|a] w'] eqn:E;
    [|vm_compute in E; discriminate..].
  exists s, w'. split; [reflexivity|].
  pose proof (nInner_against_nInfl _ _ _ _ _ 2 E) as Hx.
  vm_compute in E. inversion E; subst; clear E.
  destruct (Hx eq_refl) as (_ & _ & Hle & _).
  split; [reflexivity|]. apply Hle. discriminate.
Defined.

End DriverQuantities.

(** ** What the driver does to the disk, and when *)

Module DriverEffects.
Import Py PyProps Driver DriverProps DriverInv Effects DriverStages.

Lemma only_prints_keeps_disk {A} (c : M A) : only_prints c -> keeps_disk c.
Proof. intros H w. destruct (H w) as (lines & ->). reflexivity. Qed.

Lemma only_prints_ret {A} (a : A) : only_prints (ret a).
Proof. intros w. exists []. simpl. symmetry. apply printed_nil. Qed.

Lemma only_prints_raise {A} (e : exn) : only_prints (@raise A e).
Proof. intros w. exists []. simpl. symmetry. apply printed_nil. Qed.

Lemma only_prints_exit {A} (arg : option Z) : only_prints (@sys_exit A arg).
Proof. intros w. exists []. simpl. symmetry. apply printed_nil. Qed.

Lemma only_prints_print (line : string) : only_prints (print line).
Proof. intros w. exists [line]. reflexivity. Qed.

Lemma only_prints_or_raise {A} (e : exn) (o : option A) : only_prints (or_raise e o).
Proof. destruct o; [apply only_prints_ret|apply only_prints_raise]. Qed.

Lemma only_prints_lift {A} (r : exn + A) : only_prints (lift r).
Proof. destruct r; [apply only_prints_raise|apply only_prints_ret]. Qed.

Lemma only_prints_bind {A B} (c : M A) (k : A -> M B) :
  only_prints c -> (forall a, only_prints (k a)) -> only_prints (bind c k).
Proof.
  intros Hc Hk w. unfold bind. destruct (Hc w) as (l1 & H1).
  destruct (c w) as [[a|e|s] w1]; simpl in H1; subst w1.
  - destruct (Hk a (printed w l1)) as (l2 & H2). exists (l1 ++ l2)%list.
    rewrite H2. apply printed_printed.
  - exists l1. reflexivity.
  - exists l1. reflexivity.
Qed.

Lemma only_prints_when (b : bool) (c : M unit) : only_prints c -> only_prints (when b c).
Proof. destruct b; [auto|intros _; apply only_prints_ret]. Qed.

Lemma only_prints_truediv (a b : Q) : only_prints (truediv a b).
Proof.
  unfold truediv. destruct (Qeq_bool b 0); [apply only_prints_raise|apply only_prints_ret].
Qed.

Lemma only_prints_if {A} (b : bool) (c1 c2 : M A) :
  only_prints c1 -> only_prints c2 -> only_prints (if b then c1 else c2).
Proof. destruct b; auto. Qed.

Lemma only_prints_with_foamFile {A} (name shown : string) (body : M A) :
  only_prints body -> only_prints (with_foamFile name shown body).
Proof.
  intros Hb. unfold with_foamFile, unknown_reader. apply only_prints_if; [exact Hb|].
  apply only_prints_bind; [apply only_prints_print|intros; apply only_prints_exit].
Qed.

Lemma only_prints_unpack_shape2 (a : Np.ndarray) :
  only_prints (Converter.unpack_shape2 a).
Proof.
  unfold Converter.unpack_shape2.
  destruct (Np.shape a) as [|n [|m [|? ?]]];
    first [apply only_prints_ret|apply only_prints_raise].
Qed.

Ltac prints :=
  repeat first
    [ apply only_prints_ret | apply only_prints_raise | apply only_prints_exit
    | apply only_prints_print | apply only_prints_or_raise | apply only_prints_lift
    | apply only_prints_truediv | apply only_prints_unpack_shape2
    | apply only_prints_when | apply only_prints_with_foamFile
    | apply only_prints_if
    | apply only_prints_bind; [|intros ?]
    | progress cbv zeta
    | match goal with
      | |- only_prints (match ?p with pair _ _ => _ end) => destruct p
      end ].

Lemma only_prints_cfg (d : gmap string string) (key : string) : only_prints (cfg d key).
Proof. unfold cfg. prints. Qed.

Lemma only_prints_cfg_float (env : Env) (d : gmap string string) (key : string) :
  only_prints (cfg_float env d key).
Proof. unfold cfg_float, cfg. prints. Qed.

Lemma only_prints_cfg_int (env : Env) (d : gmap string string) (key : string) :
  only_prints (cfg_int env d key).
Proof. unfold cfg_int, cfg. prints. Qed.

Lemma only_prints_friction_velocity (env : Env) (d : gmap string string) (Ue ReDelta : Q) :
  only_prints (friction_velocity env d Ue ReDelta).
Proof. unfold friction_velocity, cfg_float, cfg. prints. Qed.

Lemma only_prints_setup (env : Env) (configDict : gmap string string) :
  only_prints (setup env configDict).
Proof.
  unfold setup.
  repeat first
    [ apply only_prints_cfg | apply only_prints_cfg_float | apply only_prints_cfg_int
    | apply only_prints_friction_velocity | progress prints ].
Qed.

Lemma only_prints_check_delta (deltaInfl : Q) (yInfl : Np.ndarray) :
  only_prints (check_delta deltaInfl yInfl).
Proof. unfold check_delta. prints. Qed.

Lemma only_prints_announce (env : Env) (s : vars) : only_prints (announce env s).
Proof. unfold announce, compute_size. prints. Qed.

(** The script is its preamble followed by the writer and the
    generation. *)
Lemma driver_in_two_halves (env : Env) (configDict : gmap string string) (w : World) :
  driver env configDict w
  = bind (preamble env configDict)
         (fun p => write_and_generate env (fst p) (snd p)) w.
Proof.
  unfold driver, preamble, finish, write_and_generate, bind, ret.
  destruct (setup env configDict w) as [[s|e|a] w1]; [|reflexivity..].
  destruct (check_delta (deltaInfl s) (yInfl s) w1) as [[u|e|a] w2]; [|reflexivity..].
  destruct (announce env s w2) as [[size|e|a] w3]; reflexivity.
Qed.

(** X8. Everything the driver does before it chooses the writer (lines
    33-196: the configuration, both grids, the parameters, the point
    counts, the thickness check and the number of time-steps) at most
    prints: however that part ends - with a value, an exception or
    [exit()] - the files on disk are those it started with.  In
    particular a run stopped there by an exception or by a failed check
    has removed and created no file. *)
Theorem preamble_only_prints (env : Env) (configDict : gmap string string) (w : World) :
  (exists lines, snd (preamble env configDict w) = printed w lines) /\
  disk (snd (preamble env configDict w)) = disk w /\
  (forall e w1, preamble env configDict w = (Raised e, w1) ->
     driver env configDict w = (Raised e, w1) /\ disk w1 = disk w) /\
  (forall a w1, preamble env configDict w = (Exited a, w1) ->
     driver env configDict w = (Exited a, w1) /\ disk w1 = disk w).
Proof.
  assert (Hp : only_prints (preamble env configDict)).
  { unfold preamble.
    apply only_prints_bind; [apply only_prints_setup|intros s].
    apply only_prints_bind; [apply only_prints_check_delta|intros _].
    apply only_prints_bind; [apply only_prints_announce|intros size].
    apply only_prints_ret. }
  pose proof (only_prints_keeps_disk _ Hp w) as Hd.
  split; [apply Hp|]. split; [exact Hd|].
  split; intros x w1 E; rewrite E in Hd; simpl in Hd;
    (split; [|exact Hd]); rewrite driver_in_two_halves; unfold bind; rewrite E;
    reflexivity.
Qed.

(** A thickness of 4 on the fixtures stops the preamble with [exit()];
    an archive that was on disk before is still there. *)
Lemma preamble_only_prints_witness :
  let w := H5.upd "out/db.hdf5" h5empty Fixtures.fresh_world in
  let run := driver Fixtures.driver_env (Fixtures.driver_cfg "foamFile" "hdf5" "4") w in
  fst run = Exited None /\ disk (snd run) = disk w.
Proof.
  intros w run.
  destruct (preamble_only_prints Fixtures.driver_env
              (Fixtures.driver_cfg "foamFile" "hdf5" "4") w) as (_ & _ & _ & Hexit).
  destruct (preamble Fixtures.driver_env (Fixtures.driver_cfg "foamFile" "hdf5" "4") w)
    as [[p|e|a] w1] eqn:E; [vm_compute in E; discriminate..|].
  destruct (Hexit a w1 eq_refl) as (Hrun & Hdisk).
  unfold run. rewrite Hrun. simpl. split; [|exact Hdisk].
  vm_compute in E. inversion E. reflexivity.
Defined.

End DriverEffects.

(** ** Degenerate time parameters *)

Module DriverTime.
Import Py PyProps Driver DriverProps DriverInv.

Local Open Scope Q_scope.

(** X9. A time-step [dt] of zero is not reported as a configuration
    error: once [setup] has returned and the thickness check has passed,
    line 193 divides by [dt] and the driver ends in an uncaught
    [ZeroDivisionError] (exit status 1), before the writer is looked at,
    so that an unknown writer goes unreported.  At most the Reynolds
    number warning is printed after [setup]. *)
Theorem zero_time_step_raises (env : Env) (configDict : gmap string string)
    (w w1 : World) (s : vars) (top : Q) :
  setup env configDict w = (Returned s, w1) ->
  Np.item (yInfl s) (-1) = Some top ->
  deltaInfl s <= top ->
  dt s == 0 ->
  exists lines,
    driver env configDict w = (Raised ZeroDivisionError, printed w1 lines) /\
    exit_status (fst (driver env configDict w)) = 1%Z /\
    (length lines <= 1)%nat.
Proof.
  intros Hsetup Htop Hle Hdt.
  assert (Hann : exists lines,
             announce env s w1 = (Raised ZeroDivisionError, printed w1 lines) /\
             (length lines <= 1)%nat).
  { apply Qeq_bool_iff in Hdt.
    unfold announce, compute_size, truediv, when, bind. rewrite Hdt.
    destruct (negb (Qle_bool (ReTauInfl s) (ReTauPrec s))); simpl.
    - eexists. split; [reflexivity|]. simpl. lia.
    - exists []. rewrite printed_nil. split; [reflexivity|]. simpl. lia. }
  destruct Hann as (lines & Hann & Hlen). exists lines.
  assert (Hrun : driver env configDict w = (Raised ZeroDivisionError, printed w1 lines)).
  { unfold driver. rewrite (bind_returned _ _ _ _ _ Hsetup). unfold finish.
    rewrite (bind_returned _ _ _ _ _ (check_delta_passes _ _ _ _ Htop Hle)).
    apply bind_raised, Hann. }
  rewrite Hrun. split; [reflexivity|]. split; [reflexivity|exact Hlen].
Qed.

(** The fixtures with [dt 0] and a writer the script does not know. *)
Lemma zero_time_step_raises_witness :
  fst (driver Fixtures.driver_env
         (<["dt" := "0"]> (Fixtures.driver_cfg "foamFile" "csv" "1"))
         Fixtures.fresh_world) = Raised ZeroDivisionError.
Proof.
  destruct (setup Fixtures.driver_env
              (<["dt" := "0"]> (Fixtures.driver_cfg "foamFile" "csv" "1"))
              Fixtures.fresh_world) as [[s|e|a] w1] eqn:E;
    [|vm_compute in E; discriminate..].
  destruct (zero_time_step_raises _ _ _ _ _ 3 E) as (lines & Hrun & _).
  - vm_compute in E. inversion E. reflexivity.
  - vm_compute in E. inversion E. vm_compute. discriminate.
  - vm_compute in E. inversion E. reflexivity.
  - rewrite Hrun. reflexivity.
Defined.





End DriverTime.

(** ** An output file that is already there *)

Module Overwrite.
Import Py H5 PyProps H5Props Layout ArchiveProps.

Lemma isfile_eq (name : string) (w : World) :
  isfile name w = (Returned (bool_decide (is_Some (disk w !! name))), w).
Proof. reflexivity. Qed.

Lemma remove_ok (name : string) (w : World) (old : h5file) :
  disk w !! name = Some old ->
  remove name w = (Returned tt, mk_World (stdout w) (delete name (disk w))).
Proof. intros H. unfold remove, bind, get_disk. rewrite H. reflexivity. Qed.

Lemma open_append_new (name : string) (w : World) :
  disk w !! name = None -> open_append name w = (Returned name, upd name h5empty w).
Proof. intros H. unfold open_append, bind, get_disk. rewrite H. reflexivity. Qed.

Lemma open_append_old (name : string) (w : World) (f : h5file) :
  disk w !! name = Some f -> open_append name w = (Returned name, w).
Proof. intros H. unfold open_append, bind, get_disk. rewrite H. reflexivity. Qed.

(** Lines 87-93 of the converter on process 0: the file is new and empty
    whatever was there, and the warning tells whether something was. *)
Lemma open_archive_rank0 (env : Converter.Env) (args : Converter.Args) (w : World) :
  Converter.rank env = 0 ->
  Converter.open_archive env args w
  = (Returned (Converter.fileName args),
     upd (Converter.fileName args) h5empty
       (Driver.printed w
          (if bool_decide (is_Some (disk w !! Converter.fileName args))
           then ["HDF5 file already exists. It it will be overwritten."]
           else []))).
Proof.
  intros Hrank. unfold Converter.open_archive. rewrite Hrank. simpl.
  destruct (disk w !! Converter.fileName args) as [old|] eqn:Hold.
  - rewrite bool_decide_eq_true_2 by eauto.
    erewrite bind_returned;
      [|erewrite bind_returned by apply isfile_eq;
        rewrite Hold, bool_decide_eq_true_2 by eauto; simpl;
        erewrite bind_returned by reflexivity;
        exact (remove_ok (Converter.fileName args)
                 (mk_World
                    (stdout w ++ ["HDF5 file already exists. It it will be overwritten."])
                    (disk w)) old Hold)].
    rewrite open_append_new by (simpl; apply lookup_delete_eq).
    unfold upd, Driver.printed. simpl. rewrite insert_delete_eq. reflexivity.
  - rewrite bool_decide_eq_false_2 by (intros [? ?]; discriminate).
    erewrite bind_returned;
      [|erewrite bind_returned by apply isfile_eq;
        rewrite Hold, bool_decide_eq_false_2 by (intros [? ?]; discriminate);
        reflexivity].
    rewrite open_append_new by exact Hold.
    rewrite DriverInv.printed_nil. reflexivity.
Qed.

(** X11. On process 0 the converter's archive does not depend on what
    was at the output path: lines 87-122, run with any file or none
    there, on a two-dimensional grid and numeric time names, return and
    leave an archive of output format A; only the overwrite warning tells
    the two cases apart, and the other files on disk are untouched. *)
Theorem converter_archive_is_fresh (env : Converter.Env) (args : Converter.Args)
    (times : list string) (pointsY pointsZ uMeanX uMeanY : Np.ndarray)
    (nY nZ : nat) (ts : list Q) (w : World) :
  Converter.rank env = 0 ->
  Np.shape pointsY = [nY; nZ] ->
  mapM (Converter.float_of_string env) times = Some ts ->
  exists f w',
    bind (Converter.open_archive env args)
         (fun dbFile => Converter.create_archive env dbFile times
                          pointsY pointsZ uMeanX uMeanY) w
      = (Returned (["velocity"; "uX"], ["velocity"; "uY"], ["velocity"; "uZ"]), w') /\
    disk w' !! Converter.fileName args = Some f /\
    archive_layout f (length times) nY nZ /\
    (forall other, other <> Converter.fileName args ->
       disk w' !! other = disk w !! other) /\
    stdout w' = (stdout w ++
                 (if bool_decide (is_Some (disk w !! Converter.fileName args))
                  then ["HDF5 file already exists. It it will be overwritten."]
                  else []))%list.
Proof.
  intros Hrank Hshape Hts.
  rewrite (bind_returned _ _ _ _ _ (open_archive_rank0 env args w Hrank)).
  set (w0 := upd (Converter.fileName args) h5empty _).
  destruct (converter_archive_layout env (Converter.fileName args) times
              pointsY pointsZ uMeanX uMeanY w0 nY nZ ts) as (f & Hrun & Hlayout);
    [apply disk_upd|exact Hshape|exact Hts|].
  exists f, (upd (Converter.fileName args) f w0).
  split; [exact Hrun|]. split; [apply disk_upd|]. split; [exact Hlayout|].
  split.
  - intros other Hother. unfold w0, upd, Driver.printed. simpl.
    rewrite !lookup_insert_ne by congruence. reflexivity.
  - reflexivity.
Qed.

(** An archive with other content at the output path of the fixtures. *)
Lemma converter_archive_is_fresh_witness :
  let old := add_object ["junk"] Group h5empty in
  let w := upd "db.hdf5" old Fixtures.fresh_world in
  exists f w',
    bind (Converter.open_archive
            (Fixtures.conv_env Fixtures.two_columns Fixtures.grid_2x1)
            Fixtures.conv_args)
         (fun dbFile => Converter.create_archive
                          (Fixtures.conv_env Fixtures.two_columns Fixtures.grid_2x1)
                          dbFile ["0.1"; "0.2"] Fixtures.grid_2x1 Fixtures.grid_2x1
                          (Np.vec [0; 10]%Q) (Np.vec [0; 0]%Q)) w
      = (Returned (["velocity"; "uX"], ["velocity"; "uY"], ["velocity"; "uZ"]), w') /\
    disk w' !! "db.hdf5" = Some f /\
    archive_layout f 2 2 1 /\
    objects f !! ["junk"] = None.
Proof.
  intros old w.
  destruct (converter_archive_is_fresh
              (Fixtures.conv_env Fixtures.two_columns Fixtures.grid_2x1)
              Fixtures.conv_args ["0.1"; "0.2"] Fixtures.grid_2x1 Fixtures.grid_2x1
              (Np.vec [0; 10]%Q) (Np.vec [0; 0]%Q) 2 1 [1 # 10; 2 # 10]%Q w)
    as (f & w' & Hrun & Hf & Hlayout & _); [reflexivity..|].
  exists f, w'. split; [exact Hrun|]. split; [exact Hf|]. split; [exact Hlayout|].
  vm_compute in Hrun. inversion Hrun; subst; clear Hrun.
  vm_compute in Hf. inversion Hf; subst. vm_compute. reflexivity.
Defined.

Lemma bind_same_start {A B} (c : M A) (k : A -> M B) (w w' : World) :
  c w = c w' -> bind c k w = bind c k w'.
Proof. intros H. unfold bind. rewrite H. reflexivity. Qed.

(** Lines 209-213 with a file at [path]: the warning, the removal, then
    the points writer. *)
Lemma removal_block_existing (points : M unit) (path : string) (w : World)
    (old : h5file) :
  disk w !! path = Some old ->
  bind (isfile path)
       (fun present =>
          bind (when present
                  (bind (print "HDF5 database already exsists. It it will be overwritten.")
                        (fun _ => remove path)))
               (fun _ => points)) w
  = points (mk_World
              (stdout w ++ ["HDF5 database already exsists. It it will be overwritten."])%list
              (delete path (disk w))).
Proof.
  intros Hold. erewrite bind_returned by apply isfile_eq.
  rewrite Hold, bool_decide_eq_true_2 by eauto. cbn [when].
  erewrite (bind_returned _ _ w _ tt); [reflexivity|].
  rewrite (bind_returned _ _ w
             (mk_World
                (stdout w ++ ["HDF5 database already exsists. It it will be overwritten."])
                (disk w)) tt) by reflexivity.
  exact (remove_ok path
           (mk_World
              (stdout w ++ ["HDF5 database already exsists. It it will be overwritten."])
              (disk w)) old Hold).
Qed.

(** ... and without one: the points writer at once. *)
Lemma removal_block_missing (points : M unit) (path : string) (w : World) :
  disk w !! path = None ->
  bind (isfile path)
       (fun present =>
          bind (when present
                  (bind (print "HDF5 database already exsists. It it will be overwritten.")
                        (fun _ => remove path)))
               (fun _ => points)) w
  = points w.
Proof.
  intros Hnone. erewrite bind_returned by apply isfile_eq.
  rewrite Hnone, bool_decide_eq_false_2 by (intros [? ?]; discriminate).
  cbn [when]. erewrite bind_returned by reflexivity. reflexivity.
Qed.

(** X12. On process 0 the hdf5 writer of the driver treats an existing
    archive as if it had never been there, apart from the warning: with a
    file at the output path, lines 206-219 behave exactly as they do on
    the disk without that file and with the warning already printed.
    [write_points_to_hdf5] and the two datasets never see the old
    content. *)
Theorem driver_archive_is_fresh (env : Driver.Env) (writePath hdf5FileName : string)
    (pointsYInfl pointsZInfl : Np.ndarray) (xOrigin t0 : Q) (size : Z)
    (w : World) (old : h5file) :
  Driver.rank env = 0 ->
  disk w !! path_join writePath hdf5FileName = Some old ->
  Driver.prepare_hdf5 env writePath hdf5FileName pointsYInfl pointsZInfl
    xOrigin t0 size w
  = Driver.prepare_hdf5 env writePath hdf5FileName pointsYInfl pointsZInfl
      xOrigin t0 size
      (mk_World
         (stdout w ++ ["HDF5 database already exsists. It it will be overwritten."])%list
         (delete (path_join writePath hdf5FileName) (disk w))).
Proof.
  intros Hrank Hold. unfold Driver.prepare_hdf5. rewrite Hrank.
  change (0 =? 0) with true. cbn [when].
  apply bind_same_start.
  rewrite (removal_block_existing _ _ _ old Hold).
  rewrite removal_block_missing by (simpl; apply lookup_delete_eq).
  reflexivity.
Qed.

(** The fixtures, with an archive that already holds a dataset [time]:
    the run does not stumble over it. *)
Lemma driver_archive_is_fresh_witness :
  let old := add_object ["time"] (Dataset (Np.vec [0]%Q)) h5empty in
  let w := upd (path_join "out" "db.hdf5") old Fixtures.fresh_world in
  fst (Driver.prepare_hdf5 Fixtures.driver_env "out" "db.hdf5"
         Fixtures.inflow_grid Fixtures.inflow_grid 0 0 3 w)
  = Returned (Driver.Archive "out/db.hdf5").
Proof.
  intros old w.
  rewrite (driver_archive_is_fresh Fixtures.driver_env "out" "db.hdf5"
             Fixtures.inflow_grid Fixtures.inflow_grid 0 0 3 w old);
    [|reflexivity|apply disk_upd].
  vm_compute. reflexivity.
Defined.

End Overwrite.

(** ** A time directory that is not a number *)

Module PartialArchive.
Import Py H5 PyProps H5Props Layout ArchiveProps.

Lemma floats_of_fails (env : Converter.Env) (times : list string) (w : World) :
  mapM (Converter.float_of_string env) times = None ->
  Converter.floats_of env times w = (Raised ValueError, w).
Proof.
  induction times as [|t rest IH]; simpl; [discriminate|].
  destruct (Converter.float_of_string env t) as [x|] eqn:Hx; simpl.
  - destruct (mapM _ rest) as [xs|] eqn:Hxs; simpl; [discriminate|].
    intros _. unfold bind, or_raise, ret. rewrite IH by reflexivity. reflexivity.
  - intros _. reflexivity.
Qed.

(** X13. When an entry of the time directory is not the text of a
    number, the converter's archive stage ends in [ValueError] at line
    104, after the file has been written to: a new file is left with the
    groups [points] and [velocity] and the datasets [pointsY], [pointsZ],
    [uMeanX] and [uMeanY], and without [times], the velocity components
    and the root attributes. *)
Theorem archive_stops_at_bad_time_name (env : Converter.Env) (dbFile : string)
    (times : list string) (pointsY pointsZ uMeanX uMeanY : Np.ndarray) (w : World) :
  disk w !! dbFile = Some h5empty ->
  mapM (Converter.float_of_string env) times = None ->
  exists f,
    Converter.create_archive env dbFile times pointsY pointsZ uMeanX uMeanY w
      = (Raised ValueError, upd dbFile f w) /\
    has_group f ["points"] /\ has_group f ["velocity"] /\
    objects f !! ["points"; "pointsY"] = Some (Dataset pointsY) /\
    objects f !! ["points"; "pointsZ"] = Some (Dataset pointsZ) /\
    objects f !! ["velocity"; "uMeanX"] = Some (Dataset uMeanX) /\
    objects f !! ["velocity"; "uMeanY"] = Some (Dataset uMeanY) /\
    objects f !! ["velocity"; "times"] = None /\
    objects f !! ["velocity"; "uX"] = None /\
    objects f !! ["velocity"; "uY"] = None /\
    objects f !! ["velocity"; "uZ"] = None /\
    attrs f = ∅.
Proof.
  intros Hnew Hts. unfold Converter.create_archive.
  file_step create_group_ok.
  file_step create_group_ok.
  file_step create_dataset_data_ok.
  file_step create_dataset_data_ok.
  file_step create_dataset_data_ok.
  file_step create_dataset_data_ok.
  erewrite bind_raised by (apply floats_of_fails; exact Hts).
  eexists. split; [reflexivity|].
  unfold has_group. repeat apply conj; reflexivity.
Qed.

(** A stray directory [README] next to the time directories. *)
Lemma archive_stops_at_bad_time_name_witness :
  let w := upd "db.hdf5" h5empty Fixtures.fresh_world in
  exists f,
    Converter.create_archive
      (Fixtures.conv_env Fixtures.two_columns Fixtures.grid_2x1) "db.hdf5"
      ["0.1"; "README"] Fixtures.grid_2x1 Fixtures.grid_2x1
      (Np.vec [0; 10]%Q) (Np.vec [0; 0]%Q) w
      = (Raised ValueError, upd "db.hdf5" f w) /\
    objects f !! ["velocity"; "times"] = None.
Proof.
  intros w.
  destruct (archive_stops_at_bad_time_name
              (Fixtures.conv_env Fixtures.two_columns Fixtures.grid_2x1) "db.hdf5"
              ["0.1"; "README"] Fixtures.grid_2x1 Fixtures.grid_2x1
              (Np.vec [0; 10]%Q) (Np.vec [0; 0]%Q) w)
    as (f & Hrun & _ & _ & _ & _ & _ & _ & Htimes & _).
  - apply disk_upd.
  - reflexivity.
  - exists f. split; assumption.
Defined.

End PartialArchive.

(** ** The conversion loop *)

Module LoopProps.
Import Py H5 PyProps H5Props Slabs.

(** Replacing the [p]-th block of [k] elements, element by element. *)
Lemma patch_lookup (l v : list Q) (p k nt : nat) :
  length l = (nt * k)%nat -> length v = k -> (p < nt)%nat ->
  forall i,
    (take (p * k) l ++ v ++ drop (S p * k) l)%list !! i
    = if decide (p * k <= i < p * k + k)%nat then v !! (i - p * k)%nat else l !! i.
Proof.
  intros Hl Hv Hp i.
  assert (Hpk : (p * k + k <= length l)%nat) by nia.
  assert (Htake : length (take (p * k) l) = (p * k)%nat)
    by (rewrite length_take; lia).
  destruct (decide (p * k <= i < p * k + k)%nat) as [Hin|Hout].
  - rewrite lookup_app_r by lia. rewrite Htake.
    rewrite lookup_app_l by lia. reflexivity.
  - destruct (Nat.lt_ge_cases i (p * k)) as [Hlt|Hge].
    + rewrite lookup_app_l by lia. apply lookup_take_lt. exact Hlt.
    + rewrite lookup_app_r by lia. rewrite Htake.
      rewrite lookup_app_r by lia. rewrite Hv.
      rewrite lookup_drop. f_equal. simpl. lia.
Qed.

Lemma patch_length (l v : list Q) (p k nt : nat) :
  length l = (nt * k)%nat -> length v = k -> (p < nt)%nat ->
  length (take (p * k) l ++ v ++ drop (S p * k) l)%list = (nt * k)%nat.
Proof.
  intros Hl Hv Hp. rewrite !length_app, length_take, length_drop. simpl. nia.
Qed.

Lemma block_lookup (l : list Q) (q k i : nat) :
  take k (drop (q * k) l) !! i = if decide (i < k)%nat then l !! (q * k + i)%nat else None.
Proof.
  destruct (decide (i < k)%nat) as [Hi|Hi].
  - rewrite lookup_take_lt by exact Hi. apply lookup_drop.
  - apply lookup_take_ge. lia.
Qed.

(** The written block reads back, and the other blocks are as before. *)
Lemma patch_blocks (l v : list Q) (p k nt : nat) :
  length l = (nt * k)%nat -> length v = k -> (p < nt)%nat ->
  take k (drop (p * k) (take (p * k) l ++ v ++ drop (S p * k) l)%list) = v /\
  forall q, q <> p ->
    take k (drop (q * k) (take (p * k) l ++ v ++ drop (S p * k) l)%list)
    = take k (drop (q * k) l).
Proof.
  intros Hl Hv Hp. split.
  - apply list_eq. intros i. rewrite block_lookup.
    rewrite (patch_lookup l v p k nt Hl Hv Hp).
    destruct (decide (i < k)%nat) as [Hi|Hi].
    + destruct (decide _) as [_|Hn]; [|lia]. f_equal. lia.
    + symmetry. apply lookup_ge_None. lia.
  - intros q Hq. apply list_eq. intros i. rewrite !block_lookup.
    destruct (decide (i < k)%nat) as [Hi|Hi]; [|reflexivity].
    rewrite (patch_lookup l v p k nt Hl Hv Hp).
    destruct (decide _) as [Hin|_]; [|reflexivity]. exfalso. nia.
Qed.

(** One assignment [dset[position, :, :] = v] inside the dataset. *)
Lemma write_slab_ok (handle : string) (path : list string) (position : Z)
    (v a : Np.ndarray) (nt ny nz : nat) (w : World) (f : h5file) :
  disk w !! handle = Some f ->
  cube f path nt ny nz a -> plane ny nz v ->
  0 <= position < Z.of_nat nt ->
  exists a',
    write_slab handle path position v w
      = (Returned tt, upd handle (add_object path (Dataset a') f) w) /\
    Np.shape a' = [nt; ny; nz] /\
    length (Np.flat a') = (nt * (ny * nz))%nat /\
    slab a' (Z.to_nat position) = Np.flat v /\
    forall q, q <> Z.to_nat position -> slab a' q = slab a q.
Proof.
  intros Hf (Hobj & Hshape & Hlen) (Hvs & Hvl) Hpos.
  unfold write_slab, get_file, get_disk, bind, or_raise. rewrite Hf. unfold ret.
  rewrite Hobj, Hshape.
  destruct (Z.leb_spec 0 position); [|lia].
  destruct (Z.ltb_spec position (Z.of_nat nt)); [|lia]. simpl.
  rewrite bool_decide_eq_true_2 by exact Hvs. simpl.
  eexists. split; [reflexivity|]. simpl.
  assert (Hp : (Z.to_nat position < nt)%nat) by lia.
  split; [reflexivity|].
  split; [apply (patch_length _ _ _ _ nt Hlen Hvl Hp)|].
  unfold slab. simpl. rewrite Hshape.
  destruct (patch_blocks (Np.flat a) (Np.flat v) (Z.to_nat position) (ny * nz) nt
              Hlen Hvl Hp) as (Hsame & Hother).
  split; [exact Hsame|exact Hother].
Qed.

Import Loop.

Lemma cube_other (f : h5file) (path other : list string) (nt ny nz : nat)
    (a : Np.ndarray) (o : h5obj) :
  other <> path -> cube f path nt ny nz a ->
  cube (add_object other o f) path nt ny nz a.
Proof.
  intros Hne (Hobj & Hrest). split; [|exact Hrest].
  unfold add_object. simpl. rewrite lookup_insert_ne by exact Hne. exact Hobj.
Qed.

Lemma cube_same (f : h5file) (path : list string) (nt ny nz : nat) (a : Np.ndarray) :
  Np.shape a = [nt; ny; nz] -> length (Np.flat a) = (nt * (ny * nz))%nat ->
  cube (add_object path (Dataset a) f) path nt ny nz a.
Proof.
  intros Hs Hl. split; [|auto]. unfold add_object. simpl. apply lookup_insert_eq.
Qed.

(** The progress message of lines 134-135. *)
Lemma progress_disk (env : Converter.Env) (chunk : Z) (i : nat) (w : World) :
  exists lines,
    when ((Converter.rank env =? 0)
          && (Converter.np_mod (Z.of_nat i) (py_int (inject_Z chunk / 20)) =? 0))
      (print ("Converted about "
              ++ Converter.str_of_float env
                   (inject_Z (Z.of_nat i) / inject_Z chunk * 100)%Q
              ++ "%")) w
    = (Returned tt, Driver.printed w lines) /\
    (Converter.rank env <> 0 -> lines = []) /\
    (Converter.rank env = 0 -> 0 <= chunk < 20 -> length lines = 1%nat).
Proof.
  destruct (Z.eqb_spec (Converter.rank env) 0) as [Hr|Hr]; simpl.
  - destruct (Converter.np_mod _ _ =? 0) eqn:E; simpl.
    + eexists. split; [reflexivity|]. split; [congruence|reflexivity].
    + exists []. rewrite DriverInv.printed_nil. split; [reflexivity|].
      split; [reflexivity|]. intros _ Hc. exfalso.
      assert (Hq : py_int (inject_Z chunk / 20) = 0).
      { unfold py_int, Qdiv, Qmult. simpl. apply Z.quot_small. lia. }
      rewrite Hq in E. discriminate.
  - exists []. rewrite DriverInv.printed_nil. split; [reflexivity|].
    split; [reflexivity|]. contradiction.
Qed.

Lemma printed_upd (handle : string) (f : h5file) (w : World) (lines : list string) :
  Driver.printed (upd handle f w) lines = upd handle f (Driver.printed w lines).
Proof. reflexivity. Qed.

Lemma upd_same (handle : string) (f : h5file) (w : World) :
  disk w !! handle = Some f -> upd handle f (Driver.printed w []) = w.
Proof.
  intros H. destruct w as [out d]. unfold upd, Driver.printed. simpl in *.
  rewrite app_nil_r, insert_id by exact H. reflexivity.
Qed.

Lemma position_inj (offset : Z) (i j : nat) :
  0 <= offset -> position offset i = position offset j -> i = j.
Proof. unfold position. lia. Qed.

(** One turn of the loop, lines 134-143. *)
Lemma convert_step_ok (env : Converter.Env) (dbFile : string) (times : list string)
    (chunk offset : Z) (uX uY uZ : list string)
    (readFunc : string -> exn + (Np.ndarray * Np.ndarray * Np.ndarray))
    (i : nat) (w : World) (f : h5file) (aX aY aZ : Np.ndarray) (ny nz : nat)
    (t : string) (vx vy vz : Np.ndarray) :
  uX <> uY -> uX <> uZ -> uY <> uZ -> 0 <= offset ->
  disk w !! dbFile = Some f ->
  cubes f uX uY uZ (length times) ny nz aX aY aZ ->
  times !! position offset i = Some t ->
  readFunc t = inr (vx, vy, vz) ->
  plane ny nz vx -> plane ny nz vy -> plane ny nz vz ->
  exists lines f' aX' aY' aZ',
    Converter.convert_step env dbFile times chunk offset uX uY uZ readFunc i w
      = (Returned tt, upd dbFile f' (Driver.printed w lines)) /\
    (Converter.rank env <> 0 -> lines = []) /\
    (Converter.rank env = 0 -> 0 <= chunk < 20 -> length lines = 1%nat) /\
    cubes f' uX uY uZ (length times) ny nz aX' aY' aZ' /\
    (slab aX' (position offset i) = Np.flat vx /\
     slab aY' (position offset i) = Np.flat vy /\
     slab aZ' (position offset i) = Np.flat vz) /\
    (forall q, q <> position offset i ->
       slab aX' q = slab aX q /\ slab aY' q = slab aY q /\ slab aZ' q = slab aZ q) /\
    attrs f' = attrs f /\
    (forall path, path <> uX -> path <> uY -> path <> uZ ->
       objects f' !! path = objects f !! path).
Proof.
  intros Hxy Hxz Hyz Hoff Hf (HX & HY & HZ) Ht Hread Hvx Hvy Hvz.
  pose proof (lookup_lt_Some _ _ _ Ht) as Hp.
  assert (Hpos : 0 <= offset + Z.of_nat i < Z.of_nat (length times))
    by (unfold position in Hp; lia).
  destruct (progress_disk env chunk i w) as (lines & Hprint & Hquiet & Hloud).
  unfold Converter.convert_step.
  rewrite (bind_returned _ _ _ _ _ Hprint).
  assert (Hidx : Np.norm_index (length times) (offset + Z.of_nat i)
                 = Some (position offset i)).
  { unfold Np.norm_index, position.
    destruct (Z.leb_spec 0 (offset + Z.of_nat i)); [|lia].
    destruct (Z.ltb_spec (offset + Z.of_nat i) (Z.of_nat (length times))); [|lia].
    reflexivity. }
  rewrite Hidx. rewrite (bind_returned _ _ _ _ (position offset i)) by reflexivity.
  rewrite Ht. rewrite (bind_returned _ _ _ _ t) by reflexivity.
  rewrite Hread. rewrite (bind_returned _ _ _ _ (vx, vy, vz)) by reflexivity.
  set (w0 := Driver.printed w lines).
  assert (Hf0 : disk w0 !! dbFile = Some f) by exact Hf.
  destruct (write_slab_ok dbFile uX (offset + Z.of_nat i) vx aX (length times) ny nz
              w0 f Hf0 HX Hvx Hpos) as (aX' & HwX & HsX & HlX & HpX & HqX).
  rewrite (bind_returned _ _ _ _ _ HwX).
  set (f1 := add_object uX (Dataset aX') f).
  assert (HY1 : cube f1 uY (length times) ny nz aY) by (apply cube_other; auto).
  destruct (write_slab_ok dbFile uY (offset + Z.of_nat i) vy aY (length times) ny nz
              (upd dbFile f1 w0) f1 (disk_upd _ _ _) HY1 Hvy Hpos)
    as (aY' & HwY & HsY & HlY & HpY & HqY).
  rewrite (bind_returned _ _ _ _ _ HwY). rewrite upd_upd.
  set (f2 := add_object uY (Dataset aY') f1).
  assert (HZ2 : cube f2 uZ (length times) ny nz aZ)
    by (apply cube_other; [auto|apply cube_other; auto]).
  destruct (write_slab_ok dbFile uZ (offset + Z.of_nat i) vz aZ (length times) ny nz
              (upd dbFile f2 w0) f2 (disk_upd _ _ _) HZ2 Hvz Hpos)
    as (aZ' & HwZ & HsZ & HlZ & HpZ & HqZ).
  rewrite HwZ, upd_upd.
  exists lines, (add_object uZ (Dataset aZ') f2), aX', aY', aZ'.
  split; [reflexivity|]. split; [exact Hquiet|]. split; [exact Hloud|].
  split.
  { split; [|split].
    - apply cube_other; [auto|]. apply cube_other; [auto|]. apply cube_same; assumption.
    - apply cube_other; [auto|]. apply cube_same; assumption.
    - apply cube_same; assumption. }
  split; [auto|]. split; [intros q Hq; auto|]. split; [reflexivity|].
  intros path H1 H2 H3. unfold f2, f1, add_object. simpl.
  rewrite !lookup_insert_ne by auto. reflexivity.
Qed.

(** Steps [j .. j+n-1] of the loop. *)
Lemma convert_steps_ok (env : Converter.Env) (dbFile : string) (times : list string)
    (chunk offset : Z) (uX uY uZ : list string)
    (readFunc : string -> exn + (Np.ndarray * Np.ndarray * Np.ndarray))
    (ny nz : nat) :
  uX <> uY -> uX <> uZ -> uY <> uZ -> 0 <= offset ->
  forall n j w f aX aY aZ,
    disk w !! dbFile = Some f ->
    cubes f uX uY uZ (length times) ny nz aX aY aZ ->
    readable times readFunc ny nz offset j n ->
    exists lines f' aX' aY' aZ',
      for_each (seq j n)
        (Converter.convert_step env dbFile times chunk offset uX uY uZ readFunc) w
        = (Returned tt, upd dbFile f' (Driver.printed w lines)) /\
      (Converter.rank env <> 0 -> lines = []) /\
      (Converter.rank env = 0 -> 0 <= chunk < 20 -> length lines = n) /\
      cubes f' uX uY uZ (length times) ny nz aX' aY' aZ' /\
      (forall i t vx vy vz, (j <= i < j + n)%nat ->
         times !! position offset i = Some t -> readFunc t = inr (vx, vy, vz) ->
         slab aX' (position offset i) = Np.flat vx /\
         slab aY' (position offset i) = Np.flat vy /\
         slab aZ' (position offset i) = Np.flat vz) /\
      (forall q, (forall i, (j <= i < j + n)%nat -> q <> position offset i) ->
         slab aX' q = slab aX q /\ slab aY' q = slab aY q /\ slab aZ' q = slab aZ q) /\
      attrs f' = attrs f /\
      (forall path, path <> uX -> path <> uY -> path <> uZ ->
         objects f' !! path = objects f !! path).
Proof.
  intros Hxy Hxz Hyz Hoff. induction n as [|n IH]; intros j w f aX aY aZ Hf Hc Hread.
  - exists [], f, aX, aY, aZ. simpl. rewrite (upd_same _ _ _ Hf).
    split; [reflexivity|]. split; [reflexivity|]. split; [reflexivity|].
    split; [exact Hc|]. split; [intros; lia|]. repeat split; reflexivity.
  - destruct (Hread j ltac:(lia)) as (t & vx & vy & vz & Ht & Hr & Hvx & Hvy & Hvz).
    destruct (convert_step_ok env dbFile times chunk offset uX uY uZ readFunc j w f
                aX aY aZ ny nz t vx vy vz Hxy Hxz Hyz Hoff Hf Hc Ht Hr Hvx Hvy Hvz)
      as (l1 & f1 & aX1 & aY1 & aZ1 & Hstep & Hq1 & Hl1 & Hc1 & Hs1 & Ho1 & Ha1 & Hp1).
    assert (Hread' : readable times readFunc ny nz offset (S j) n).
    { intros i Hi. apply Hread. lia. }
    destruct (IH (S j) (upd dbFile f1 (Driver.printed w l1)) f1 aX1 aY1 aZ1
                (disk_upd _ _ _) Hc1 Hread')
      as (l2 & f2 & aX2 & aY2 & aZ2 & Hrest & Hq2 & Hl2 & Hc2 & Hs2 & Ho2 & Ha2 & Hp2).
    exists (l1 ++ l2)%list, f2, aX2, aY2, aZ2.
    split.
    { simpl. rewrite (bind_returned _ _ _ _ _ Hstep), Hrest.
      rewrite printed_upd, upd_upd, DriverInv.printed_printed. reflexivity. }
    split; [intros Hr0; rewrite (Hq1 Hr0), (Hq2 Hr0); reflexivity|].
    split; [intros Hr0 Hch; rewrite length_app, (Hl1 Hr0 Hch), (Hl2 Hr0 Hch); lia|].
    split; [exact Hc2|].
    split.
    { intros i t' vx' vy' vz' Hi Ht' Hr'.
      destruct (decide (i = j)) as [->|Hne].
      - rewrite Ht in Ht'. injection Ht' as <-. rewrite Hr in Hr'.
        injection Hr' as <- <- <-.
        destruct (Ho2 (position offset j)) as (HX & HY & HZ).
        { intros i' Hi' Heq. apply position_inj in Heq; [lia|exact Hoff]. }
        rewrite HX, HY, HZ. exact Hs1.
      - apply (Hs2 i t' vx' vy' vz'); [lia|assumption..]. }
    split.
    { intros q Hq.
      destruct (Ho2 q) as (HX & HY & HZ); [intros i Hi; apply Hq; lia|].
      destruct (Ho1 q) as (HX1 & HY1 & HZ1); [apply Hq; lia|].
      rewrite HX, HY, HZ. auto. }
    split; [congruence|].
    intros path H1 H2 H3. rewrite (Hp2 path H1 H2 H3). apply Hp1; assumption.
Qed.

(** X14. The conversion loop of a process whose chunk lies inside the
    time series, on an archive whose [uX], [uY] and [uZ] have the shape
    [(len(times), ny, nz)], with a reader that returns planes of shape
    [(ny, nz)]: the loop returns; for every time-step of the chunk the
    slab at its position holds what the reader returned for it, in each
    of the three datasets; every other slab, the other objects, the
    attributes and the other files are untouched.  Processes other than 0
    print nothing, and process 0 prints a progress line at every step
    when the chunk has fewer than 20 steps. *)
Theorem conversion_loop_fills_chunk (env : Converter.Env) (dbFile : string)
    (times : list string) (chunk offset : Z) (uX uY uZ : list string)
    (readFunc : string -> exn + (Np.ndarray * Np.ndarray * Np.ndarray))
    (ny nz : nat) (w : World) (f : h5file) (aX aY aZ : Np.ndarray) :
  uX <> uY -> uX <> uZ -> uY <> uZ -> 0 <= offset ->
  disk w !! dbFile = Some f ->
  cubes f uX uY uZ (length times) ny nz aX aY aZ ->
  readable times readFunc ny nz offset 0 (Z.to_nat chunk) ->
  exists w' f' aX' aY' aZ',
    for_each (seq 0 (Z.to_nat chunk))
      (Converter.convert_step env dbFile times chunk offset uX uY uZ readFunc) w
      = (Returned tt, w') /\
    disk w' !! dbFile = Some f' /\
    (forall other, other <> dbFile -> disk w' !! other = disk w !! other) /\
    cubes f' uX uY uZ (length times) ny nz aX' aY' aZ' /\
    (forall i t vx vy vz, (i < Z.to_nat chunk)%nat ->
       times !! position offset i = Some t -> readFunc t = inr (vx, vy, vz) ->
       slab aX' (position offset i) = Np.flat vx /\
       slab aY' (position offset i) = Np.flat vy /\
       slab aZ' (position offset i) = Np.flat vz) /\
    (forall q, (forall i, (i < Z.to_nat chunk)%nat -> q <> position offset i) ->
       slab aX' q = slab aX q /\ slab aY' q = slab aY q /\ slab aZ' q = slab aZ q) /\
    attrs f' = attrs f /\
    (forall path, path <> uX -> path <> uY -> path <> uZ ->
       objects f' !! path = objects f !! path) /\
    (Converter.rank env <> 0 -> stdout w' = stdout w) /\
    (Converter.rank env = 0 -> 0 <= chunk < 20 ->
       length (stdout w') = (length (stdout w) + Z.to_nat chunk)%nat).
Proof.
  intros Hxy Hxz Hyz Hoff Hf Hc Hread.
  destruct (convert_steps_ok env dbFile times chunk offset uX uY uZ readFunc ny nz
              Hxy Hxz Hyz Hoff (Z.to_nat chunk) 0%nat w f aX aY aZ Hf Hc Hread)
    as (lines & f' & aX' & aY' & aZ' & Hrun & Hq & Hl & Hc' & Hs & Ho & Ha & Hp).
  exists (upd dbFile f' (Driver.printed w lines)), f', aX', aY', aZ'.
  split; [exact Hrun|]. split; [apply disk_upd|].
  split; [intros other Hne; unfold upd; simpl; rewrite lookup_insert_ne by congruence;
          reflexivity|].
  split; [exact Hc'|].
  split; [intros i t vx vy vz Hi; apply Hs; lia|].
  split; [intros q Hq'; apply Ho; intros i Hi; apply Hq'; lia|].
  split; [exact Ha|]. split; [exact Hp|].
  split.
  - intros Hr. simpl. rewrite (Hq Hr), app_nil_r. reflexivity.
  - intros Hr Hch. simpl. rewrite length_app, (Hl Hr Hch). reflexivity.
Qed.

(** Two time-steps on the 2x1 grid, converted by process 0 alone. *)
Lemma conversion_loop_fills_chunk_witness :
  let uX := ["velocity"; "uX"] in
  let uY := ["velocity"; "uY"] in
  let uZ := ["velocity"; "uZ"] in
  let empty := Np.zeros [2; 2; 1]%nat in
  let f := add_object uZ (Dataset empty)
             (add_object uY (Dataset empty) (add_object uX (Dataset empty) h5empty)) in
  let w := upd "db.hdf5" f Fixtures.fresh_world in
  let readFunc := fun _ : string =>
                    inr (Fixtures.grid_2x1, Fixtures.grid_2x1, Fixtures.grid_2x1)
                    : exn + (Np.ndarray * Np.ndarray * Np.ndarray) in
  exists w' f' aX' aY' aZ',
    for_each (seq 0 (Z.to_nat 2))
      (Converter.convert_step
         (Fixtures.conv_env Fixtures.two_columns Fixtures.grid_2x1)
         "db.hdf5" ["0.1"; "0.2"] 2 0 uX uY uZ readFunc) w
      = (Returned tt, w') /\
    disk w' !! "db.hdf5" = Some f' /\
    cubes f' uX uY uZ 2 2 1 aX' aY' aZ' /\
    slab aX' 0 = [0; 1]%Q /\ slab aX' 1 = [0; 1]%Q /\
    length (stdout w') = 2%nat.
Proof.
  intros uX uY uZ empty f w readFunc.
  destruct (conversion_loop_fills_chunk
              (Fixtures.conv_env Fixtures.two_columns Fixtures.grid_2x1)
              "db.hdf5" ["0.1"; "0.2"] 2 0 uX uY uZ readFunc 2 1 w f
              empty empty empty)
    as (w' & f' & aX' & aY' & aZ' & Hrun & Hf' & _ & Hc & Hs & _ & _ & _ & _ & Hout).
  - discriminate.
  - discriminate.
  - discriminate.
  - lia.
  - apply disk_upd.
  - repeat split; reflexivity.
  - intros i Hi. destruct i as [|[|i]]; [| |simpl in Hi; lia].
    + exists "0.1", Fixtures.grid_2x1, Fixtures.grid_2x1, Fixtures.grid_2x1.
      repeat split; reflexivity.
    + exists "0.2", Fixtures.grid_2x1, Fixtures.grid_2x1, Fixtures.grid_2x1.
      repeat split; reflexivity.
  - exists w', f', aX', aY', aZ'.
    split; [exact Hrun|]. split; [exact Hf'|]. split; [exact Hc|].
    destruct (Hs 0%nat "0.1" Fixtures.grid_2x1 Fixtures.grid_2x1 Fixtures.grid_2x1)
      as (H0 & _); [simpl; lia|reflexivity..|].
    destruct (Hs 1%nat "0.2" Fixtures.grid_2x1 Fixtures.grid_2x1 Fixtures.grid_2x1)
      as (H1 & _); [simpl; lia|reflexivity..|].
    split; [exact H0|]. split; [exact H1|].
    apply Hout; [reflexivity|lia].
Defined.

End LoopProps.

(** ** The converter's [main] *)

Module MainProps.
Import Py PyProps Converter ConverterProps.

(** Lines 68-76 on any array: they end in an exception. *)
Lemma read_mean_profile_never_returns (env : Env) (args : Args) (w : World) :
  exists e, read_mean_profile env args w = (Raised e, w).
Proof.
  unfold read_mean_profile.
  destruct (genfromtxt env (uMeanFile args)) as [e|uMean] eqn:Hgen.
  - exists e. apply bind_raised. reflexivity.
  - rewrite (bind_returned _ _ w w uMean) by reflexivity.
    destruct (Np.slice_axis1 uMean 1) as [uMeanX|].
    + rewrite (bind_returned _ _ w w uMeanX) by reflexivity.
      destruct (Np.shape uMean !! 1%nat) as [ncols|].
      * rewrite (bind_returned _ _ w w ncols) by reflexivity.
        destruct (ncols =? 2)%nat.
        -- destruct (Np.slice_axis1 uMean 2) as [uMeanY|].
           ++ rewrite (bind_returned _ _ w w uMeanY) by reflexivity.
              exists TypeError. reflexivity.
           ++ exists IndexError. reflexivity.
        -- rewrite (bind_returned _ _ w w (Np.zeros (Np.shape uMeanX))) by reflexivity.
           exists TypeError. reflexivity.
      * exists IndexError. reflexivity.
    + exists IndexError. reflexivity.
Qed.

(** X15. Once [parse_args] has accepted the command line, the converter's
    [main] never returns: for every value of the four options, every
    environment (whatever the directory listing, the profile file and the
    readers give) and every state of the disk, lines 56-151 end in an
    uncaught exception and leave the standard output and the files as
    they were.  So from line 56 on the module, under any [__name__],
    prints nothing, never exits through [sys.exit] and changes no
    file. *)
Theorem main_never_returns (env : Env) (args : Args) (w : World) :
  (exists e, main env args w = (Raised e, w)) /\
  forall name__,
    snd (script name__ env args w) = w /\
    (fst (script name__ env args w) = Returned tt \/
     exists e, fst (script name__ env args w) = Raised e).
Proof.
  assert (Hmain : exists e, main env args w = (Raised e, w)).
  { unfold main.
    destruct (listdir env (data_dir args)) as [names|].
    - rewrite (bind_returned _ _ w w names) by reflexivity.
      destruct (read_mean_profile_never_returns env args w) as (e & He).
      exists e. apply bind_raised, He.
    - exists OSError. reflexivity. }
  split; [exact Hmain|].
  intros name__. unfold script. destruct (String.eqb name__ " __main__").
  - destruct Hmain as (e & ->). split; [reflexivity|]. right. eauto.
  - split; [reflexivity|]. left. reflexivity.
Qed.

End MainProps.

(** ** The friction velocity *)

Module FrictionProps.
Import Py PyProps Driver DriverProps DriverInv.

Local Open Scope Q_scope.

(** X16. Lines 129-136 evaluate the skin-friction correlation also when
    [uTauInflow] is given as a number.  A Reynolds number [ReDelta] of
    zero ends in [ZeroDivisionError] and an exception of [pow] is passed
    on, in either mode; when [pow] returns and [uTauInflow] is a number,
    the result is that number, whatever [pow] returned; in the mode
    [compute] it is [Ue * sqrt(0.02 * pow(1/ReDelta, 1/6) / 2)]. *)
Theorem friction_velocity_cases (env : Env) (configDict : gmap string string)
    (Ue ReDelta : Q) (w : World) :
  (ReDelta == 0 ->
     friction_velocity env configDict Ue ReDelta w = (Raised ZeroDivisionError, w)) /\
  (forall e, ~ ReDelta == 0 ->
     math_pow env (1 / ReDelta) (1 / 6) = inl e ->
     friction_velocity env configDict Ue ReDelta w = (Raised e, w)) /\
  (forall p str u, ~ ReDelta == 0 ->
     math_pow env (1 / ReDelta) (1 / 6) = inr p ->
     configDict !! "uTauInflow" = Some str -> str <> "compute"%string ->
     float_of_string env str = Some u ->
     friction_velocity env configDict Ue ReDelta w = (Returned u, w)) /\
  (forall p, ~ ReDelta == 0 ->
     math_pow env (1 / ReDelta) (1 / 6) = inr p ->
     configDict !! "uTauInflow" = Some "compute"%string ->
     friction_velocity env configDict Ue ReDelta w
       = (Returned (Ue * np_sqrt env ((2 # 100) * p / 2)), w)).
Proof.
  assert (Hnz : ~ ReDelta == 0 -> Qeq_bool ReDelta 0 = false).
  { intros H. destruct (Qeq_bool ReDelta 0) eqn:E; [|reflexivity].
    apply Qeq_bool_iff in E. contradiction. }
  assert (Hinv : ~ ReDelta == 0 -> truediv 1 ReDelta w = (Returned (1 / ReDelta), w)).
  { intros H. unfold truediv. rewrite (Hnz H). reflexivity. }
  assert (Hsixth : truediv 1 6 w = (Returned (1 / 6), w)) by reflexivity.
  repeat apply conj.
  - intros Hz. apply Qeq_bool_iff in Hz.
    unfold friction_velocity. apply bind_raised.
    unfold truediv. rewrite Hz. reflexivity.
  - intros e Hre Hpow. unfold friction_velocity.
    rewrite (bind_returned _ _ w w (1 / ReDelta)) by exact (Hinv Hre).
    rewrite (bind_returned _ _ w w (1 / 6)) by exact Hsixth.
    apply bind_raised. rewrite Hpow. reflexivity.
  - intros p str u Hre Hpow Hcfg Hstr Hfloat. unfold friction_velocity.
    rewrite (bind_returned _ _ w w (1 / ReDelta)) by exact (Hinv Hre).
    rewrite (bind_returned _ _ w w (1 / 6)) by exact Hsixth.
    rewrite (bind_returned _ _ w w p) by (rewrite Hpow; reflexivity).
    rewrite (bind_returned _ _ w w str) by (unfold cfg; rewrite Hcfg; reflexivity).
    destruct (String.eqb_spec str "compute"); [contradiction|].
    unfold cfg_float.
    rewrite (bind_returned _ _ w w str) by (unfold cfg; rewrite Hcfg; reflexivity).
    rewrite Hfloat. reflexivity.
  - intros p Hre Hpow Hcfg. unfold friction_velocity.
    rewrite (bind_returned _ _ w w (1 / ReDelta)) by exact (Hinv Hre).
    rewrite (bind_returned _ _ w w (1 / 6)) by exact Hsixth.
    rewrite (bind_returned _ _ w w p) by (rewrite Hpow; reflexivity).
    rewrite (bind_returned _ _ w w "compute"%string) by (unfold cfg; rewrite Hcfg; reflexivity).
    reflexivity.
Qed.

(** The fixtures, where [uTauInflow] is 1, with a [pow] that returns and
    with one that raises. *)
Lemma friction_velocity_cases_witness :
  friction_velocity Fixtures.driver_env (Fixtures.driver_cfg "foamFile" "hdf5" "1")
    10 10 Fixtures.fresh_world = (Returned 1, Fixtures.fresh_world) /\
  friction_velocity Fixtures2.failing_pow_env (Fixtures.driver_cfg "foamFile" "hdf5" "1")
    10 10 Fixtures.fresh_world = (Raised ValueError, Fixtures.fresh_world) /\
  friction_velocity Fixtures.driver_env (Fixtures.driver_cfg "foamFile" "hdf5" "1")
    10 0 Fixtures.fresh_world = (Raised ZeroDivisionError, Fixtures.fresh_world).
Proof.
  repeat apply conj.
  - destruct (friction_velocity_cases Fixtures.driver_env
                (Fixtures.driver_cfg "foamFile" "hdf5" "1") 10 10 Fixtures.fresh_world)
      as (_ & _ & Hnum & _).
    apply (Hnum 1 "1"%string 1); try reflexivity; discriminate.
  - destruct (friction_velocity_cases Fixtures2.failing_pow_env
                (Fixtures.driver_cfg "foamFile" "hdf5" "1") 10 10 Fixtures.fresh_world)
      as (_ & Hpow & _).
    apply (Hpow ValueError); [discriminate|reflexivity].
  - destruct (friction_velocity_cases Fixtures.driver_env
                (Fixtures.driver_cfg "foamFile" "hdf5" "1") 10 0 Fixtures.fresh_world)
      as (Hzero & _).
    apply Hzero. reflexivity.
Defined.

End FrictionProps.

(** ** The sorted time directories *)

Module SortProps.
Import Py PyProps Driver DriverInv Order.









End SortProps.

(** ** A failure after the writer *)

Module LateFailure.
Import Py PyProps H5 H5Props Driver DriverProps DriverStages DriverEffects Layout.

(** X18. The mean profile is rescaled (line 226) after the output archive
    has been prepared.  With the writer [hdf5], when
    [mod_lund_rescale_mean_velocity] raises, the run ends in that
    exception and the archive stays on disk as lines 206-219 left it: a
    dataset [time] of shape [(size, 1)] and a dataset [velocity] of shape
    [(size, nPointsZ, 3)] in its root, with no velocity field written. *)
Theorem failed_rescaling_leaves_archive (env : Env) (configDict : gmap string string)
    (w w1 w2 : World) (s : vars) (size : Z) (target : write_target) (e : exn) :
  preamble env configDict w = (Returned (s, size), w1) ->
  writer s = "hdf5" ->
  prepare_hdf5 env (writePath s) (hdf5FileName s) (pointsYInfl s) (pointsZInfl s)
    (xOrigin s) (t0 s) size w1 = (Returned target, w2) ->
  mod_lund_rescale_mean_velocity env
    (mk_rescale_args (etaPrec s) (yPlusPrec s) (uMean s) (nInfl s) (nInner s)
       (etaInfl s) (yPlusInfl s) (nPointsZInfl s) (Ue s) (U0 s) (gamma s)) = inl e ->
  driver env configDict w = (Raised e, w2) /\
  exists f,
    disk w2 !! path_join (writePath s) (hdf5FileName s) = Some f /\
    inflow_layout f (Z.to_nat size) (Np.size (pointsZInfl s)).
Proof.
  intros Hpre Hwriter Hprep Hfail.
  split.
  - rewrite driver_in_two_halves.
    rewrite (bind_returned _ _ w w1 (s, size)) by exact Hpre.
    simpl. unfold write_and_generate.
    rewrite (bind_returned _ _ w1 w2 target)
      by (unfold prepare_writer; rewrite Hwriter; exact Hprep).
    unfold generate. apply bind_raised. rewrite Hfail. reflexivity.
  - destruct (ArchiveProps.driver_archive_layout _ _ _ _ _ _ _ _ _ _ _ Hprep)
      as (f & _ & Hf & Hlayout).
    exists f. split; assumption.
Qed.

(** The fixtures with a rescaling that raises [ValueError]. *)
Lemma failed_rescaling_leaves_archive_witness :
  exists w2 f,
    driver Fixtures2.failing_rescale_env (Fixtures.driver_cfg "foamFile" "hdf5" "1")
      Fixtures.fresh_world = (Raised ValueError, w2) /\
    disk w2 !! "out/db.hdf5" = Some f /\
    inflow_layout f 3 4.
Proof.
  destruct (preamble Fixtures2.failing_rescale_env
              (Fixtures.driver_cfg "foamFile" "hdf5" "1") Fixtures.fresh_world)
    as [[[s size]|e|a] w1] eqn:Hpre; [|vm_compute in Hpre; discriminate..].
  destruct (prepare_hdf5 Fixtures2.failing_rescale_env (writePath s) (hdf5FileName s)
              (pointsYInfl s) (pointsZInfl s) (xOrigin s) (t0 s) size w1)
    as [[target|e|a] w2] eqn:Hprep;
    [|vm_compute in Hpre; inversion Hpre; subst; vm_compute in Hprep; discriminate..].
  destruct (failed_rescaling_leaves_archive Fixtures2.failing_rescale_env
              (Fixtures.driver_cfg "foamFile" "hdf5" "1")
              Fixtures.fresh_world w1 w2 s size target ValueError Hpre)
    as (Hrun & f & Hf & Hlayout).
  - vm_compute in Hpre. inversion Hpre. reflexivity.
  - exact Hprep.
  - reflexivity.
  - exists w2, f. split; [exact Hrun|].
    vm_compute in Hpre. inversion Hpre; subst; clear Hpre.
    split; [exact Hf|exact Hlayout].
Defined.

End LateFailure.

(** ** The chunk of a process *)

Module ChunkProps.
Import Py PyProps Partitioner PartitionerProps Converter Loop.

Lemma at_rank_lookup (env : Env) (l : list Z) (c : Z) (w : World) :
  0 <= rank env < Z.of_nat (length l) ->
  l !! Z.to_nat (rank env) = Some c ->
  at_rank env l w = (Returned c, w).
Proof.
  intros Hr Hc. unfold at_rank, Np.norm_index.
  destruct (Z.leb_spec 0 (rank env)); [|lia].
  destruct (Z.ltb_spec (rank env) (Z.of_nat (length l))); [|lia].
  simpl. rewrite (bind_returned _ _ w w (Z.to_nat (rank env))) by reflexivity.
  rewrite Hc. reflexivity.
Qed.

(** X19. With [chunks_and_offsets] as the specification defines it, on a
    process whose rank is below the number of processes the two lookups
    [chunks[rank]] and [offsets[rank]] of the converter return, and the
    range they give lies inside the time series: every step of the loop
    of lines 133-143 finds its time directory, so [times[position]] never
    raises [IndexError].  A rank at or above the number of processes
    ends in [IndexError] at [chunks[rank]]. *)
Theorem rank_chunk_inside_series (env : Env) (times : list string) (w : World) :
  1 <= nProcs env ->
  let chunks := fst (chunks_and_offsets (nProcs env) (Z.of_nat (length times))) in
  let offsets := snd (chunks_and_offsets (nProcs env) (Z.of_nat (length times))) in
  (0 <= rank env < nProcs env ->
   exists chunk offset,
     at_rank env chunks w = (Returned chunk, w) /\
     at_rank env offsets w = (Returned offset, w) /\
     0 <= chunk /\ 0 <= offset /\
     offset + chunk <= Z.of_nat (length times) /\
     forall i, (i < Z.to_nat chunk)%nat ->
       exists t, times !! position offset i = Some t) /\
  (nProcs env <= rank env -> at_rank env chunks w = (Raised IndexError, w)).
Proof.
  intros HP chunks offsets. unfold chunks_and_offsets in chunks, offsets.
  simpl in chunks, offsets.
  set (N := Z.of_nat (length times)) in *.
  assert (Hlen : length chunks = Z.to_nat (nProcs env)) by apply length_chunk_sizes.
  assert (Hpos : Forall (fun c => 0 <= c) chunks)
    by (apply chunk_sizes_nonneg; unfold N; lia).
  split.
  - intros Hr.
    set (r := Z.to_nat (rank env)).
    assert (Hrlt : (r < Z.to_nat (nProcs env))%nat) by (unfold r; lia).
    assert (Hc : chunks !! r = Some (chunk_size (nProcs env) N r))
      by (apply chunk_sizes_lookup; exact Hrlt).
    assert (Ho : offsets !! r = Some (0 + zsum (take r chunks)))
      by (apply running_offsets_lookup; lia).
    exists (chunk_size (nProcs env) N r), (0 + zsum (take r chunks)).
    assert (Hc0 : 0 <= chunk_size (nProcs env) N r).
    { rewrite Forall_forall in Hpos. apply Hpos.
      apply (list_elem_of_lookup_2 _ r). exact Hc. }
    pose proof (zsum_take_le chunks r Hpos) as Hpre.
    pose proof (zsum_take_le chunks (S r) Hpos) as Hnext.
    rewrite (zsum_take_S chunks r _ Hc) in Hnext.
    assert (Hsum : zsum chunks = N) by (apply zsum_chunk_sizes; exact HP).
    split; [apply at_rank_lookup; [lia|exact Hc]|].
    split; [apply at_rank_lookup;
            [unfold offsets; rewrite length_running_offsets, length_chunk_sizes; lia
            |exact Ho]|].
    split; [exact Hc0|]. split; [lia|]. split; [lia|].
    intros i Hi. apply lookup_lt_is_Some. unfold position, N in *. lia.
  - intros Hr. unfold at_rank, Np.norm_index.
    destruct (Z.leb_spec 0 (rank env)); [|lia].
    destruct (Z.ltb_spec (rank env) (Z.of_nat (length chunks))); [lia|].
    destruct (Z.ltb_spec (rank env) 0); [lia|]. reflexivity.
Qed.

(** The second of two processes on a series of two time directories. *)
Lemma rank_chunk_inside_series_witness :
  exists chunk offset,
    at_rank Fixtures2.second_of_two
      (fst (chunks_and_offsets 2 (Z.of_nat (length ["0.1"; "0.2"]))))
      Fixtures.fresh_world = (Returned chunk, Fixtures.fresh_world) /\
    at_rank Fixtures2.second_of_two
      (snd (chunks_and_offsets 2 (Z.of_nat (length ["0.1"; "0.2"]))))
      Fixtures.fresh_world = (Returned offset, Fixtures.fresh_world) /\
    offset + chunk <= 2.
Proof.
  destruct (rank_chunk_inside_series Fixtures2.second_of_two ["0.1"; "0.2"]
              Fixtures.fresh_world ltac:(simpl; lia)) as (Hin & _).
  destruct (Hin ltac:(simpl; lia)) as (chunk & offset & Hc & Ho & _ & _ & Hle & _).
  exists chunk, offset. split; [exact Hc|]. split; [exact Ho|exact Hle].
Defined.

End ChunkProps.

(** ** The file of the mean profile *)

Module ProfileSource.
Import Py PyProps Driver DriverProps DriverInv.

Lemma norm_index_last {A} (l : list A) (idx : nat) :
  Np.norm_index (length l) (-1) = Some idx -> l !! idx = last l.
Proof.
  unfold Np.norm_index. simpl.
  destruct (Z.leb_spec (- Z.of_nat (length l)) (-1)) as [Hle|Hgt]; [|discriminate].
  intros H. injection H as <-. rewrite last_lookup. f_equal. lia.
Qed.

(** X20. The driver reads the mean profile from [UMean_X.xy] in the
    directory that [os.listdir] returns last for [collapsedFields]; that
    listing is not sorted, unlike the one of the time series, so the
    directory is the last one listed and not the one with the greatest
    name.  The profile is the second column of that file behind a
    leading zero. *)
Theorem mean_profile_comes_from_last_listed (env : Env)
    (configDict : gmap string string) (w w' : World) (s : vars) :
  setup env configDict w = (Returned s, w') ->
  exists readPath listing latest table col,
    let collapsed := path_join (path_join readPath "postProcessing") "collapsedFields" in
    configDict !! "readPath" = Some readPath /\
    listdir env collapsed = Some listing /\
    last listing = Some latest /\
    genfromtxt env (path_join (path_join collapsed latest) "UMean_X.xy") = inr table /\
    Np.slice_axis1 table 1 = Some col /\
    uMean s = prepend_zero col.
Proof.
  unfold setup. intros H. invert_binds H. repeat tidy_step.
  match goal with
  | Hg : (if ?b then _ else _) _ = (Returned _, _) |- _ =>
      destruct b; repeat tidy_step
  end;
  match goal with
  | Hidx : Np.norm_index (length ?l) (-1) = Some ?i, Hl : ?l !! ?i = Some _ |- _ =>
      rewrite (norm_index_last l i Hidx) in Hl
  end; simpl; do 5 eexists; repeat apply conj; eauto.
Qed.

(** The fixtures list ["0.2"] before ["0.1"]: the profile is read from
    ["0.1"], while the time series ends with ["0.2"]. *)
Lemma mean_profile_comes_from_last_listed_witness :
  exists s w',
    setup Fixtures.driver_env (Fixtures.driver_cfg "foamFile" "hdf5" "1")
          Fixtures.fresh_world = (Returned s, w') /\
    last (times s) = Some "0.2"%string /\
    exists readPath listing table col,
      listdir Fixtures.driver_env
        (path_join (path_join readPath "postProcessing") "collapsedFields")
        = Some listing /\
      last listing = Some "0.1"%string /\
      genfromtxt Fixtures.driver_env
        (path_join (path_join (path_join (path_join readPath "postProcessing")
                                 "collapsedFields") "0.1") "UMean_X.xy") = inr table /\
      Np.slice_axis1 table 1 = Some col /\
      uMean s = prepend_zero col.
Proof.
  destruct (setup Fixtures.driver_env (Fixtures.driver_cfg "foamFile" "hdf5" "1")
                  Fixtures.fresh_world) as [[s|e|a] w'] eqn:E;
    [|vm_compute in E; discriminate..].
  exists s, w'. split; [reflexivity|].
  destruct (mean_profile_comes_from_last_listed _ _ _ _ _ E)
    as (readPath & listing & latest & table & col & _ & Hlist & Hlast & Hgen & Hcol & Hu).
  split; [vm_compute in E; inversion E; reflexivity|].
  assert (Hlatest : latest = "0.1"%string).
  { simpl in Hlist. injection Hlist as <-. simpl in Hlast. congruence. }
  subst latest.
  exists readPath, listing, table, col. auto.
Defined.

End ProfileSource.
